(** * pycex: the Binance spot REST client ([bnc/rest.py], [bnc/spot.py])

    A shallow embedding of the transport client ([request]), the request
    normalizer ([tidy_request_params]), the filter precision analyzer
    ([get_prec_just_for_binance_filter]), the filter-list analysis
    ([analyze_exchange_symbol_filters]) and the domain mapper
    ([to_cex_symbol]), followed by the properties of the specification.

    Python [int] is unbounded and is modelled by [Z]; [str] and [bytes] by
    [string]; a [dict] by an association list in insertion order (the order
    is what [items()] and [urlencode] see); exceptions by an error monad. *)

From Stdlib Require Import ZArith List String Ascii Bool Lia DecimalString.
Import ListNotations.
Local Open Scope string_scope.
Local Open Scope Z_scope.
Local Set Warnings "-register-all".

(** ** Python values *)

(** The values that flow through the client: parameter values, decoded JSON
    payloads, filter records.  JSON numbers are integers here (every number
    the claims talk about is one).  [VObj] is an object that carries data
    attributes, a [types.SimpleNamespace]; a [TypedDict] instance is a plain
    [dict] at run time, hence a [VDict]. *)
Inductive PyVal : Type :=
| VNone : PyVal
| VBool : bool -> PyVal
| VInt : Z -> PyVal
| VStr : string -> PyVal
| VList : list PyVal -> PyVal
| VDict : list (string * PyVal) -> PyVal
| VObj : list (string * PyVal) -> PyVal.

Definition dict := list (string * PyVal).

(** ** Exceptions

    The source raises plain [Exception] objects told apart by their message;
    the constructors carry what each message interpolates.  The names are
    those of the specification's taxonomy. *)
Inductive PyExn : Type :=
| TypeError (what : string)
| AttributeError (attr : string)
| RetriesExhausted (retries : Z) (cause : string)
| MalformedError (on_success_path : bool) (body : string)
| ApiError (code msg : PyVal)
| FormatError (size : string)
| TypeMismatch (field : string) (got : PyVal).

Inductive Res (A : Type) : Type :=
| Ok (a : A)
| Raise (e : PyExn).
Arguments Ok {A} a.
Arguments Raise {A} e.

Definition bind {A B} (c : Res A) (k : A -> Res B) : Res B :=
  match c with
  | Ok a => k a
  | Raise e => Raise e
  end.

Declare Scope py_scope.
Delimit Scope py_scope with py.
Notation "x <- c ;; k" := (bind c (fun x => k))
  (at level 100, c at next level, right associativity) : py_scope.

(** ** String primitives *)

Module Str.

(** [s.split(sep)] for a one-character separator. *)
Fixpoint split (sep : ascii) (s : string) : list string :=
  match s with
  | EmptyString => [EmptyString]
  | String c r =>
      if Ascii.eqb c sep then EmptyString :: split sep r
      else match split sep r with
           | [] => [String c EmptyString]
           | p :: ps => String c p :: ps
           end
  end.

(** [s.find(c)] for a one-character needle: the index of the first
    occurrence, [-1] when there is none. *)
Fixpoint find (c : ascii) (s : string) : Z :=
  match s with
  | EmptyString => -1
  | String d r =>
      if Ascii.eqb d c then 0
      else let i := find c r in
           if i =? -1 then -1 else i + 1
  end.

Definition len (s : string) : Z := Z.of_nat (String.length s).

(** [c in s]. *)
Fixpoint mem (c : ascii) (s : string) : bool :=
  match s with
  | EmptyString => false
  | String d r => Ascii.eqb d c || mem c r
  end.

(** [s[:-1]]: the string without its last character (the empty string stays empty). *)
Fixpoint drop_last (s : string) : string :=
  match s with
  | EmptyString => EmptyString
  | String _ EmptyString => EmptyString
  | String c r => String c (drop_last r)
  end.

(** ["0" * n] and the like. *)
Fixpoint rep (c : ascii) (n : nat) : string :=
  match n with
  | O => EmptyString
  | S k => String c (rep c k)
  end.

End Str.

(** ** Filter precision analyzer ([spot.py], lines 100-130) *)

Definition get_prec_just_for_binance_filter (size : string) : Res Z :=
  let parts := Str.split "." size in
  let integer_part := nth 0 parts EmptyString in
  let one_index := Str.find "1" integer_part in
  if negb (one_index =? -1) then
    Ok (one_index - Str.len integer_part + 1)
  else if (List.length parts =? 1)%nat then
    Raise (FormatError size)
  else
    let decimal_part := nth 1 parts EmptyString in
    let one_index := Str.find "1" decimal_part in
    if negb (one_index =? -1) then Ok (one_index + 1)
    else Raise (FormatError size).

(** ** [str()] and [repr()] *)

Definition dquote : string := String "034"%char EmptyString.
Definition squote : string := String "039"%char EmptyString.

Definition str_of_int (z : Z) : string := NilZero.string_of_int (Z.to_int z).

Fixpoint join (sep : string) (l : list string) : string :=
  match l with
  | [] => EmptyString
  | [x] => x
  | x :: r => x ++ sep ++ join sep r
  end.

(** [repr(v)].  A string is wrapped in single quotes as it is, which is what
    Python prints for a string without quotes, backslashes or control
    characters. *)
Fixpoint py_repr (v : PyVal) : string :=
  match v with
  | VNone => "None"
  | VBool true => "True"
  | VBool false => "False"
  | VInt z => str_of_int z
  | VStr s => squote ++ s ++ squote
  | VList l => "[" ++ join ", " (map py_repr l) ++ "]"
  | VDict d =>
      "{" ++ join ", " (map (fun kv : string * PyVal =>
                          let (k, x) := kv in
                          squote ++ k ++ squote ++ ": " ++ py_repr x) d)
          ++ "}"
  | VObj d =>
      "namespace(" ++ join ", " (map (fun kv : string * PyVal =>
                                   let (k, x) := kv in
                                   k ++ "=" ++ py_repr x) d)
                   ++ ")"
  end.

(** [str(v)]. *)
Definition py_str (v : PyVal) : string :=
  match v with
  | VStr s => s
  | _ => py_repr v
  end.

Definition lower_ascii (c : ascii) : ascii :=
  let n := nat_of_ascii c in
  if ((65 <=? n) && (n <=? 90))%nat then ascii_of_nat (n + 32) else c.

(** [s.lower()] on ASCII text. *)
Fixpoint lower (s : string) : string :=
  match s with
  | EmptyString => EmptyString
  | String c r => String (lower_ascii c) (lower r)
  end.

(** ** Dictionaries *)

(** [d.get(k)]: the value bound to [k], if any. *)
Fixpoint dict_get (d : dict) (k : string) : option PyVal :=
  match d with
  | [] => None
  | (k', v) :: r => if String.eqb k' k then Some v else dict_get r k
  end.

(** [d.get(k, default)]. *)
Definition dict_get_default (d : dict) (k : string) (default : PyVal) : PyVal :=
  match dict_get d k with
  | Some v => v
  | None => default
  end.

(** [d[k] = v]: an existing key keeps its position, a new one goes last. *)
Fixpoint dict_set (k : string) (v : PyVal) (d : dict) : dict :=
  match d with
  | [] => [(k, v)]
  | (k', v') :: r =>
      if String.eqb k' k then (k', v) :: r else (k', v') :: dict_set k v r
  end.

Definition keys (d : dict) : list string := map fst d.

(** ** Request normalizer ([rest.py], lines 31-47) *)

Definition is_none (v : PyVal) : bool :=
  match v with
  | VNone => true
  | _ => false
  end.

(** Lines 37-45: the literal built for a non-empty list [v]. *)
Definition list_literal (v : list PyVal) : string :=
  let s :=
    fold_left
      (fun s item =>
         match item with
         | VStr t => s ++ dquote ++ t ++ dquote ++ ","
         | _ => s ++ py_str item
         end)
      v "[" in
  (* remove last comma *)
  let s := Str.drop_last s in
  s ++ "]".

(** One turn of the loop of line 33 on the entry [(k, v)]. *)
Definition tidy_entry (params : dict) (kv : string * PyVal) : dict :=
  let (k, v) := kv in
  match v with
  | VBool _ => dict_set k (VStr (lower (py_str v))) params
  | VList ((_ :: _) as l) => dict_set k (VStr (list_literal l)) params
  | _ => params
  end.

Definition tidy_request_params (params : dict) : dict :=
  let params := filter (fun kv => negb (is_none (snd kv))) params in
  fold_left tidy_entry params params.

(** The normalizer as the specification words it (section 4.2): list items
    are joined with commas, strings double-quoted, other items in their
    textual form. *)
Definition spec_list_literal (v : list PyVal) : string :=
  "[" ++ join ","
           (map (fun item => match item with
                             | VStr t => dquote ++ t ++ dquote
                             | _ => py_str item
                             end) v)
      ++ "]".

Definition spec_tidy_value (v : PyVal) : PyVal :=
  match v with
  | VBool true => VStr "true"
  | VBool false => VStr "false"
  | VList ((_ :: _) as l) => VStr (spec_list_literal l)
  | _ => v
  end.

Definition spec_tidy_request_params (params : dict) : dict :=
  map (fun kv => (fst kv, spec_tidy_value (snd kv)))
      (filter (fun kv => negb (is_none (snd kv))) params).

(** ** Request descriptor and response envelope ([rest.py], lines 8-28) *)

Record Request : Type := mkRequest {
  base_url : string;
  path : string;
  method : string;
  headers : option dict;
  params : option dict;
  api_key : option string;
  resp_in_microseconds : bool;
  retry : Z
}.

(** [Request(base_url=..., path=...)]: every other field at its default. *)
Definition Request_default (base_url path : string) : Request :=
  mkRequest base_url path "GET" None None None false 0.

Record Response : Type := mkResponse {
  status_code : Z;
  status : string;
  code : PyVal;
  msg : PyVal;
  data : PyVal
}.

(** The two fields the client mutates on the shared descriptor. *)
Definition set_headers (req : Request) (h : option dict) : Request :=
  mkRequest (base_url req) (path req) (method req) h (params req)
            (api_key req) (resp_in_microseconds req) (retry req).

Definition set_retry (req : Request) (n : Z) : Request :=
  mkRequest (base_url req) (path req) (method req) (headers req) (params req)
            (api_key req) (resp_in_microseconds req) n.

(** ** The outside world *)

(** What [requests.request] does on one call: it raises
    [requests.exceptions.ConnectionError], or returns a response. *)
Inductive Outcome : Type :=
| ConnectionError (cause : string)
| Reply (status_code : Z) (reason : string) (content : string).

(** What an observer of the process sees, oldest first. *)
Inductive Event : Type :=
| EvHttp (method url : string) (headers : option dict)
| EvSleep (seconds : Z).

Definition is_http (e : Event) : bool :=
  match e with
  | EvHttp _ _ _ => true
  | EvSleep _ => false
  end.

Definition http_calls (tr : list Event) : nat :=
  List.length (filter is_http tr).

Definition sleeps (tr : list Event) : list Z :=
  flat_map (fun e => match e with EvSleep s => [s] | _ => [] end) tr.

(** ** Transport client ([rest.py], lines 50-126) *)

Section Transport.

(** Library code the client calls: [urllib.parse.urlencode], [json.loads]
    ([None] stands for [json.JSONDecodeError]) and [requests.request],
    which answers the [n]-th HTTP call of the process with [transport n]. *)
Variable urlencode : dict -> string.
Variable json_loads : string -> option PyVal.
Variable transport : nat -> Outcome.

(** Lines 65-68.  [if req.params:] holds for a non-empty mapping. *)
Definition build_url (req : Request) : string :=
  let url := base_url req ++ path req in
  match params req with
  | Some ((_ :: _) as p) => url ++ "?" ++ urlencode (tidy_request_params p)
  | _ => url
  end.

(** Lines 72-73: [req.headers["X-MBX-TIME-UNIT"] = "MICROSECOND"]. *)
Definition inject_time_unit (req : Request) : Res Request :=
  if resp_in_microseconds req then
    match headers req with
    | Some h =>
        Ok (set_headers req (Some (dict_set "X-MBX-TIME-UNIT" (VStr "MICROSECOND") h)))
    | None => Raise (TypeError "'NoneType' object does not support item assignment")
    end
  else Ok req.

(** [resp.code == -1021]. *)
Definition is_recv_window_error (c : PyVal) : bool :=
  match c with
  | VInt z => z =? -1021
  | _ => false
  end.

(** The result of a call: what it returns or raises, the descriptor as the
    caller finds it afterwards, and the events so far. *)
Definition Run : Type := (Res Response * Request * list Event)%type.

(** One pass through the body of [request]: it ends the call, or it
    reaches one of the two [return request(req)] of lines 105 and 125. *)
Inductive Step : Type :=
| Done (r : Run)
| Again (req : Request) (tr : list Event).

Definition attempt (req : Request) (tr : list Event) : Step :=
  let url := build_url req in
  match inject_time_unit req with
  | Raise e => Done (Raise e, req, tr)
  | Ok req =>
      let n := http_calls tr in
      let tr := (tr ++ [EvHttp (method req) url (headers req)])%list in
      match transport n with
      | ConnectionError e =>
          (* Retry on connection errors *)
          if retry req <? 5 then
            Again (set_retry req (retry req + 1)) (tr ++ [EvSleep 1])%list
          else Done (Raise (RetriesExhausted (retry req) e), req, tr)
      | Reply status_code reason body =>
          let resp := mkResponse status_code reason (VInt 0) (VStr EmptyString) VNone in
          if negb (status_code =? 200) then
            match json_loads body with
            | None => Done (Raise (MalformedError false body), req, tr)
            | Some (VDict error_data) =>
                let code := dict_get_default error_data "code" (VInt 0) in
                let msg := dict_get_default error_data "msg" (VStr EmptyString) in
                (* Handle timestamp outside recvWindow error *)
                if is_recv_window_error code && (retry req <? 5) then
                  Again (set_retry req (retry req + 1)) (tr ++ [EvSleep 1])%list
                else Done (Raise (ApiError code msg), req, tr)
            | Some _ => Done (Raise (AttributeError "get"), req, tr)
            end
          else
            match body with
            | EmptyString => Done (Ok resp, req, tr)
            | _ =>
                match json_loads body with
                | Some v =>
                    Done (Ok (mkResponse status_code reason (VInt 0)
                                         (VStr EmptyString) v), req, tr)
                | None => Done (Raise (MalformedError true body), req, tr)
                end
            end
      end
  end.

(** [request(req)], with the recursion depth bounded by [fuel]; [None] is
    fuel exhaustion, which [request] below never meets. *)
Fixpoint request_loop (fuel : nat) (req : Request) (tr : list Event)
  : option Run :=
  match fuel with
  | O => None
  | S fuel =>
      match attempt req tr with
      | Done r => Some r
      | Again req tr => request_loop fuel req tr
      end
  end.

(** Every recursive call has raised the counter, which stays below 6. *)
Definition request_fuel (req : Request) : nat := S (Z.to_nat (5 - retry req)).

Definition request (req : Request) (tr : list Event) : option Run :=
  request_loop (request_fuel req) req tr.

End Transport.

(** ** A decoder for a fragment of JSON

    [json.loads] itself is a parameter of the client above.  The examples
    that need a decoded body use this decoder, which covers objects, arrays,
    strings without escape sequences, integers and the three literals; it
    rejects everything else. *)

Module Json.

Definition is_ws (c : ascii) : bool :=
  Ascii.eqb c " " || Ascii.eqb c "009" || Ascii.eqb c "010" || Ascii.eqb c "013".

Fixpoint skip_ws (s : string) : string :=
  match s with
  | String c r => if is_ws c then skip_ws r else s
  | EmptyString => s
  end.

Definition is_digit (c : ascii) : bool :=
  let n := nat_of_ascii c in ((48 <=? n) && (n <=? 57))%nat.

Fixpoint digits (acc : Z) (s : string) : Z * string :=
  match s with
  | String c r =>
      if is_digit c then digits (10 * acc + (Z.of_nat (nat_of_ascii c) - 48)) r
      else (acc, s)
  | EmptyString => (acc, s)
  end.

(** [strip p s]: [s] without its prefix [p]. *)
Fixpoint strip (p s : string) : option string :=
  match p, s with
  | EmptyString, _ => Some s
  | String a p', String b s' => if Ascii.eqb a b then strip p' s' else None
  | _, _ => None
  end.

(** The characters of a string literal, after its opening quote. *)
Fixpoint str_body (s : string) : option (string * string) :=
  match s with
  | EmptyString => None
  | String c r =>
      if Ascii.eqb c "034" then Some (EmptyString, r)
      else if Ascii.eqb c "092" then None
      else match str_body r with
           | Some (t, r') => Some (String c t, r')
           | None => None
           end
  end.

Definition starts_digit (s : string) : bool :=
  match s with
  | String c _ => is_digit c
  | EmptyString => false
  end.

(** An integer; a fraction or an exponent after it is outside the fragment. *)
Definition number (s : string) : option (PyVal * string) :=
  let finish (sign : Z) (r : string) :=
    if starts_digit r then
      let (n, r') := digits 0 r in
      match r' with
      | String c _ =>
          if Ascii.eqb c "." || Ascii.eqb c "e" || Ascii.eqb c "E" then None
          else Some (VInt (sign * n), r')
      | EmptyString => Some (VInt (sign * n), r')
      end
    else None in
  match s with
  | String c r => if Ascii.eqb c "-" then finish (-1) r else finish 1 s
  | EmptyString => None
  end.

(** A later binding of a key replaces an earlier one. *)
Definition object_of (ms : list (string * PyVal)) : PyVal :=
  VDict (fold_left (fun d kv => dict_set (fst kv) (snd kv) d) ms []).

Fixpoint value (fuel : nat) (s : string) : option (PyVal * string) :=
  match fuel with
  | O => None
  | S fuel =>
      match skip_ws s with
      | EmptyString => None
      | String c r as s' =>
          if Ascii.eqb c "[" then
            match skip_ws r with
            | String d r' =>
                if Ascii.eqb d "]" then Some (VList [], r')
                else match elements fuel r with
                     | Some (vs, r'') => Some (VList vs, r'')
                     | None => None
                     end
            | EmptyString => None
            end
          else if Ascii.eqb c "{" then
            match skip_ws r with
            | String d r' =>
                if Ascii.eqb d "}" then Some (VDict [], r')
                else match members fuel r with
                     | Some (ms, r'') => Some (object_of ms, r'')
                     | None => None
                     end
            | EmptyString => None
            end
          else if Ascii.eqb c "034" then
            match str_body r with
            | Some (t, r') => Some (VStr t, r')
            | None => None
            end
          else
            match strip "null" s', strip "true" s', strip "false" s' with
            | Some r', _, _ => Some (VNone, r')
            | _, Some r', _ => Some (VBool true, r')
            | _, _, Some r' => Some (VBool false, r')
            | _, _, _ => number s'
            end
      end
  end
with elements (fuel : nat) (s : string) : option (list PyVal * string) :=
  match fuel with
  | O => None
  | S fuel =>
      match value fuel s with
      | Some (v, r) =>
          match skip_ws r with
          | String c r' =>
              if Ascii.eqb c "," then
                match elements fuel r' with
                | Some (vs, r'') => Some (v :: vs, r'')
                | None => None
                end
              else if Ascii.eqb c "]" then Some ([v], r')
              else None
          | EmptyString => None
          end
      | None => None
      end
  end
with members (fuel : nat) (s : string) : option (list (string * PyVal) * string) :=
  match fuel with
  | O => None
  | S fuel =>
      match strip dquote (skip_ws s) with
      | Some r =>
          match str_body r with
          | Some (k, r1) =>
              match strip ":" (skip_ws r1) with
              | Some r2 =>
                  match value fuel r2 with
                  | Some (v, r3) =>
                      match skip_ws r3 with
                      | String c r4 =>
                          if Ascii.eqb c "," then
                            match members fuel r4 with
                            | Some (ms, r5) => Some ((k, v) :: ms, r5)
                            | None => None
                            end
                          else if Ascii.eqb c "}" then Some ([(k, v)], r4)
                          else None
                      | EmptyString => None
                      end
                  | None => None
                  end
              | None => None
              end
          | None => None
          end
      | None => None
      end
  end.

(** The whole text must be one value, up to white space. *)
Definition loads (s : string) : option PyVal :=
  match value (S (2 * String.length s)) s with
  | Some (v, r) =>
      match skip_ws r with
      | EmptyString => Some v
      | _ => None
      end
  | None => None
  end.

End Json.

(** ** Filter-list analysis ([spot.py], lines 133-173) *)

(** [for x in v]: the items a loop over [v] visits. *)
Definition py_iter (v : PyVal) : Res (list PyVal) :=
  match v with
  | VList l => Ok l
  | VDict d => Ok (map VStr (keys d))
  | VStr s => Ok (map (fun c => VStr (String c EmptyString)) (list_ascii_of_string s))
  | _ => Raise (TypeError "object is not iterable")
  end.

(** [v.get(k)]: only a [dict] has the method. *)
Definition py_get (v : PyVal) (k : string) : Res PyVal :=
  match v with
  | VDict d => Ok (dict_get_default d k VNone)
  | _ => Raise (AttributeError "get")
  end.

(** [v.name] for a data attribute: only an object carries one; a [dict], a
    [list], a [str], an [int] or [None] has none of the names read below. *)
Definition getattr (v : PyVal) (name : string) : Res PyVal :=
  match v with
  | VObj attrs =>
      match dict_get attrs name with
      | Some x => Ok x
      | None => Raise (AttributeError name)
      end
  | _ => Raise (AttributeError name)
  end.

(** A [for] loop whose body may raise. *)
Fixpoint for_each {A B : Type} (body : A -> B -> Res A) (l : list B) (a : A) : Res A :=
  match l with
  | [] => Ok a
  | x :: r => bind (body a x) (for_each body r)
  end.

Local Open Scope py_scope.

(** The body of the loop of line 149 on the pair [(p_prec, q_prec)]. *)
Definition filter_step (acc : Z * Z) (filter_data : PyVal) : Res (Z * Z) :=
  let (p_prec, q_prec) := acc in
  filter_type <- py_get filter_data "filterType" ;;
  match filter_type with
  | VStr filter_type =>
      if String.eqb filter_type "PRICE_FILTER" then
        tick_size <- py_get filter_data "tickSize" ;;
        match tick_size with
        | VStr tick_size =>
            p_prec <- get_prec_just_for_binance_filter tick_size ;;
            Ok (p_prec, q_prec)
        | _ => Raise (TypeMismatch "tickSize" tick_size)
        end
      else if String.eqb filter_type "LOT_SIZE" then
        step_size <- py_get filter_data "stepSize" ;;
        match step_size with
        | VStr step_size =>
            q_prec <- get_prec_just_for_binance_filter step_size ;;
            Ok (p_prec, q_prec)
        | _ => Raise (TypeMismatch "stepSize" step_size)
        end
      else Ok (p_prec, q_prec)
  | _ => Raise (TypeMismatch "filterType" filter_type)
  end.

(** [ExchangeSymbolFiltersInfo(pPrec=..., qPrec=..., canMarket=...)]: calling
    a [TypedDict] builds a [dict]. *)
Definition ExchangeSymbolFiltersInfo (pPrec qPrec : Z) (canMarket : bool) : PyVal :=
  VDict [("pPrec", VInt pPrec); ("qPrec", VInt qPrec); ("canMarket", VBool canMarket)].

Definition analyze_exchange_symbol_filters (filters : PyVal) : Res PyVal :=
  let can_market := false in
  items <- py_iter filters ;;
  acc <- for_each filter_step items (0, 0) ;;
  Ok (ExchangeSymbolFiltersInfo (fst acc) (snd acc) can_market).

(** ** Domain mapper ([spot.py], lines 51-64) *)

(** Modelled from the spec: the generic [Symbol] of the module [symbol],
    which is not among the sources; section 3 lists its fields. *)
Record Symbol : Type := mkSymbol {
  cex : PyVal;
  type : PyVal;
  asset : PyVal;
  quote : PyVal;
  symbol : PyVal;
  q_precision : PyVal;
  p_precision : PyVal;
  tradable : PyVal;
  can_market : PyVal;
  can_margin : PyVal
}.

Section DomainMapper.

(** The members [CexName.BINANCE], [SymbolType.SPOT], [SymbolStatus.TRADING]
    and [OrderType.MARKET] of enumerations declared outside the sources,
    and Python's [==]. *)
Variables BINANCE SPOT TRADING MARKET : PyVal.
Variable py_eq : PyVal -> PyVal -> bool.

(** The keyword arguments of [Symbol(...)] are evaluated in the order they
    are written. *)
Definition to_cex_symbol (exchange_symbol : PyVal) : Res Symbol :=
  filters <- getattr exchange_symbol "filters" ;;
  filters_info <- analyze_exchange_symbol_filters filters ;;
  asset <- getattr exchange_symbol "base_asset" ;;
  quote <- getattr exchange_symbol "quote_asset" ;;
  symbol <- getattr exchange_symbol "symbol" ;;
  q_precision <- getattr filters_info "q_prec" ;;
  p_precision <- getattr filters_info "p_prec" ;;
  status <- getattr exchange_symbol "status" ;;
  order_types <- getattr exchange_symbol "order_types" ;;
  members <- py_iter order_types ;;
  can_margin <- getattr exchange_symbol "is_margin_trading_allowed" ;;
  Ok (mkSymbol BINANCE SPOT asset quote symbol q_precision p_precision
               (VBool (py_eq status TRADING))
               (VBool (existsb (py_eq MARKET) members))
               can_margin).

End DomainMapper.

(** ** Inputs and readings the properties below talk about *)

(** [quoted s] is [s] between double quotes, as in a JSON text. *)
Definition quoted (s : string) : string := dquote ++ s ++ dquote.

(** The text of [10^n]: a one followed by [n] zeros. *)
Definition power_of_ten_text (n : nat) : string := String "1" (Str.rep "0" n).

(** The text of [10^-n]: [0.], then [n - 1] zeros, then a one. *)
Definition negative_power_text (n : nat) : string :=
  "0." ++ Str.rep "0" (n - 1) ++ "1".

Definition integer_part (size : string) : string :=
  nth 0 (Str.split "." size) EmptyString.

Definition is_digit (c : ascii) : bool :=
  let n := nat_of_ascii c in ((48 <=? n) && (n <=? 57))%nat.

Fixpoint all_digits (s : string) : bool :=
  match s with
  | EmptyString => true
  | String c r => is_digit c && all_digits r
  end.

(** The number a digit string denotes, most significant digit first. *)
Fixpoint digits_value (acc : Z) (s : string) : Z :=
  match s with
  | EmptyString => acc
  | String c r => digits_value (10 * acc + (Z.of_nat (nat_of_ascii c) - 48)) r
  end.

(** The string is a decimal numeral whose value is at least one. *)
Definition value_at_least_one (size : string) : bool :=
  let ip := integer_part size in
  negb (String.eqb ip EmptyString) && all_digits ip && (1 <=? digits_value 0 ip).

(** The string is a decimal numeral with integer part zero and a fraction:
    a step strictly below one. *)
Definition fractional_step (size : string) : bool :=
  let ip := integer_part size in
  negb (String.eqb ip EmptyString) && all_digits ip && (digits_value 0 ip =? 0)
  && (2 <=? List.length (Str.split "." size))%nat.

(** The descriptor gets past lines 72-73. *)
Definition reaches_transport (req : Request) : bool :=
  negb (resp_in_microseconds req)
  || match headers req with Some _ => true | None => false end.

(** A reply the client answers by a retry while the counter allows it. *)
Definition recv_window_reply (json_loads : string -> option PyVal) (o : Outcome) : Prop :=
  exists status_code reason body error_data,
    o = Reply status_code reason body /\ status_code <> 200 /\
    json_loads body = Some (VDict error_data) /\
    dict_get error_data "code" = Some (VInt (-1021)).

Definition connection_failure (o : Outcome) : Prop :=
  exists cause, o = ConnectionError cause.

(** What the call raises when [o] is the outcome of an attempt made with the
    counter at [retries] and no retry left. *)
Definition terminal_error (json_loads : string -> option PyVal) (retries : Z)
    (o : Outcome) : PyExn :=
  match o with
  | ConnectionError cause => RetriesExhausted retries cause
  | Reply _ _ body =>
      match json_loads body with
      | Some (VDict error_data) =>
          ApiError (dict_get_default error_data "code" (VInt 0))
                   (dict_get_default error_data "msg" (VStr EmptyString))
      | _ => MalformedError false body
      end
  end.

(** The descriptor after lines 72-73, when they do not raise. *)
Definition injected (req : Request) : Request :=
  if resp_in_microseconds req then
    set_headers req
      (option_map (dict_set "X-MBX-TIME-UNIT" (VStr "MICROSECOND")) (headers req))
  else req.

(** The event of the HTTP call the descriptor makes. *)
Definition http_event (urlencode : dict -> string) (req : Request) : Event :=
  EvHttp (method req) (build_url urlencode req) (headers (injected req)).

(** The two fields the client reads from a decoded error object. *)
Definition error_code (error_data : dict) : PyVal :=
  dict_get_default error_data "code" (VInt 0).

Definition error_msg (error_data : dict) : PyVal :=
  dict_get_default error_data "msg" (VStr EmptyString).

(** [urlencode] on keys and values that need no percent-escape. *)
Definition urlencode_unescaped (d : dict) : string :=
  join "&" (map (fun kv => fst kv ++ "=" ++ py_str (snd kv)) d).

Definition five_seconds : list Z := [1; 1; 1; 1; 1].

(** The examples of the specification. *)
Definition server_time_body : string :=
  "{" ++ quoted "serverTime" ++ ": 1700000000000}".

Definition recv_window_body : string :=
  "{" ++ quoted "code" ++ ": -1021, " ++ quoted "msg" ++ ": "
      ++ quoted "Timestamp outside recvWindow" ++ "}".

Definition example_params : dict :=
  [("a", VBool true); ("b", VNone); ("c", VList [VInt 1; VInt 2; VInt 3])].

Definition example_filters : PyVal :=
  VList [VDict [("filterType", VStr "PRICE_FILTER"); ("tickSize", VStr "0.00100000")];
         VDict [("filterType", VStr "LOT_SIZE"); ("stepSize", VStr "1.00000000")]].

(** A transport whose [n]-th call fails at the connection level when [n] is
    even and is answered by the recvWindow rejection when [n] is odd. *)
Definition alternating (n : nat) : Outcome :=
  if Nat.even n then ConnectionError "connection refused"
  else Reply 409 "Conflict" recv_window_body.

(** The text the loop of lines 38-42 adds for a list of strings. *)
Fixpoint with_trailing_commas (ts : list string) : string :=
  match ts with
  | [] => EmptyString
  | t :: r => dquote ++ t ++ dquote ++ "," ++ with_trailing_commas r
  end.

(** What the loop of the normalizer makes of one value. *)
Definition tidy_value (v : PyVal) : PyVal :=
  match v with
  | VBool _ => VStr (lower (py_str v))
  | VList ((_ :: _) as l) => VStr (list_literal l)
  | _ => v
  end.

Definition non_null (params : dict) : dict :=
  filter (fun kv => negb (is_none (snd kv))) params.

Definition is_str (v : PyVal) : Prop :=
  exists s, v = VStr s.

(** Every list among the values holds strings only. *)
Definition lists_hold_strings (params : dict) : Prop :=
  forall k l, In (k, VList l) params -> Forall is_str l.

(** An exchange symbol record as [json.loads] delivers it, a [dict], and the
    same record as an object with the attributes the mapper reads. *)
Definition example_symbol_record : PyVal :=
  VDict [("symbol", VStr "BTCUSDT"); ("status", VStr "TRADING");
         ("baseAsset", VStr "BTC"); ("quoteAsset", VStr "USDT");
         ("orderTypes", VList [VStr "LIMIT"; VStr "MARKET"]);
         ("isMarginTradingAllowed", VBool true);
         ("filters", example_filters)].

Definition example_symbol_object : PyVal :=
  VObj [("symbol", VStr "BTCUSDT"); ("status", VStr "TRADING");
        ("base_asset", VStr "BTC"); ("quote_asset", VStr "USDT");
        ("order_types", VList [VStr "LIMIT"; VStr "MARKET"]);
        ("is_margin_trading_allowed", VBool true);
        ("filters", example_filters)].

(** ** Endpoint functions ([spot.py], lines 176-253) *)

(** [resp.name] on a [Response]: a dataclass instance has its five fields
    and no other data attribute. *)
Definition response_attr (resp : Response) (name : string) : Res PyVal :=
  if String.eqb name "status_code" then Ok (VInt (status_code resp))
  else if String.eqb name "status" then Ok (VStr (status resp))
  else if String.eqb name "code" then Ok (code resp)
  else if String.eqb name "msg" then Ok (msg resp)
  else if String.eqb name "data" then Ok (data resp)
  else Raise (AttributeError name).

(** [v()]: none of the values modelled here is callable. *)
Definition py_call (v : PyVal) : Res PyVal :=
  Raise (TypeError "object is not callable").

Section Endpoints.

(** The constants [API_ENDPOINT] and [API_V3] of the module [endpoints],
    which is not among the sources, and the library code of the client. *)
Variables API_ENDPOINT API_V3 : string.
Variable urlencode : dict -> string.
Variable json_loads : string -> option PyVal.
Variable transport : nat -> Outcome.

(** What an endpoint function returns or raises, and the events so far; the
    descriptor is local to the function and is dropped. *)
Definition Outcome_of (A : Type) : Type := option (Res A * list Event).

Definition ping_request : Request :=
  Request_default API_ENDPOINT (API_V3 ++ "/ping").

Definition ping_spot_endpoint (tr : list Event) : Outcome_of unit :=
  match request urlencode json_loads transport ping_request tr with
  | Some (res, _, tr') => Some (bind res (fun _ => Ok tt), tr')
  | None => None
  end.

Definition server_time_request : Request :=
  Request_default API_ENDPOINT (API_V3 ++ "/time").

Definition get_spot_server_time (tr : list Event) : Outcome_of Response :=
  match request urlencode json_loads transport server_time_request tr with
  | Some (res, _, tr') => Some (res, tr')
  | None => None
  end.

(** [locals()] at line 231: the five keyword parameters, in the order of
    their declaration, under their Python names. *)
Definition exchange_info_locals
    (symbol symbols permissions show_permission_sets symbol_status : PyVal) : dict :=
  [("symbol", symbol); ("symbols", symbols); ("permissions", permissions);
   ("show_permission_sets", show_permission_sets); ("symbol_status", symbol_status)].

Definition exchange_info_request
    (symbol symbols permissions show_permission_sets symbol_status : PyVal) : Request :=
  mkRequest API_ENDPOINT (API_V3 ++ "/exchangeInfo") "GET" None
            (Some (exchange_info_locals symbol symbols permissions
                                        show_permission_sets symbol_status))
            None false 0.

Definition get_spot_exchange_info
    (symbol symbols permissions show_permission_sets symbol_status : PyVal)
    (tr : list Event) : Outcome_of Response :=
  match request urlencode json_loads transport
                (exchange_info_request symbol symbols permissions
                                       show_permission_sets symbol_status) tr with
  | Some (res, _, tr') => Some (res, tr')
  | None => None
  end.

(** The body of the loop of line 249: [symbol_data.to_cex_symbol()], then
    [symbols.append(symbol)]. *)
Definition append_cex_symbol (symbols : list PyVal) (symbol_data : PyVal)
  : Res (list PyVal) :=
  method <- getattr symbol_data "to_cex_symbol" ;;
  symbol <- py_call method ;;
  Ok (symbols ++ [symbol])%list.

Definition get_spot_symbols (tr : list Event) : Outcome_of (list PyVal) :=
  match get_spot_exchange_info VNone VNone VNone VNone VNone tr with
  | Some (Ok exchange_info, tr') =>
      Some (symbols <- response_attr exchange_info "symbols" ;;
            items <- py_iter symbols ;;
            for_each append_cex_symbol items [],
            tr')
  | Some (Raise e, tr') => Some (Raise e, tr')
  | None => None
  end.

End Endpoints.

(** ** Further readings *)

(** A filter record whose type is a string other than the two the analysis
    knows. *)
Definition unrecognised (filter_data : PyVal) : Prop :=
  exists d t,
    filter_data = VDict d /\ dict_get d "filterType" = Some (VStr t)
    /\ t <> "PRICE_FILTER" /\ t <> "LOT_SIZE".

(** A [PRICE_FILTER] record with tick size [t], a [LOT_SIZE] record with
    step size [t]. *)
Definition price_filter (filter_data : PyVal) (t : PyVal) : Prop :=
  exists d,
    filter_data = VDict d /\ dict_get d "filterType" = Some (VStr "PRICE_FILTER")
    /\ dict_get_default d "tickSize" VNone = t.

Definition lot_size (filter_data : PyVal) (t : PyVal) : Prop :=
  exists d,
    filter_data = VDict d /\ dict_get d "filterType" = Some (VStr "LOT_SIZE")
    /\ dict_get_default d "stepSize" VNone = t.

Definition not_a_string (v : PyVal) : Prop :=
  forall s, v <> VStr s.

(** [k] rounds of an HTTP call followed by a sleep of one second. *)
Fixpoint rounds (call : Event) (k : nat) : list Event :=
  match k with
  | O => []
  | S k => call :: EvSleep 1 :: rounds call k
  end.

(** A value the normalizer leaves alone. *)
Definition passes_through (v : PyVal) : Prop :=
  match v with
  | VNone | VBool _ | VList (_ :: _) => False
  | _ => True
  end.

(** An HTTP status 200 with a body that is empty or decodes. *)
Definition good_reply (json_loads : string -> option PyVal) (o : Outcome)
    (reason : string) (payload : PyVal) : Prop :=
  exists body,
    o = Reply 200 reason body
    /\ match body with
       | EmptyString => payload = VNone
       | _ => json_loads body = Some payload
       end.

(** * Properties *)

(** ** Strings *)

Section StrFacts.

Variable c : ascii.

Lemma find_lower_bound (s : string) : -1 <= Str.find c s.
Proof.
  induction s as [|d r IH]; simpl; [lia|].
  destruct (Ascii.eqb d c); [lia|].
  destruct (Z.eqb_spec (Str.find c r) (-1)); lia.
Qed.

Lemma find_absent (s : string) : Str.find c s = -1 <-> Str.mem c s = false.
Proof.
  induction s as [|d r IH]; simpl; [tauto|].
  destruct (Ascii.eqb d c); simpl.
  - split; intro H; discriminate H.
  - pose proof (find_lower_bound r) as Hlb.
    destruct (Z.eqb_spec (Str.find c r) (-1)) as [E|E].
    + split; intros _; [apply IH; exact E | reflexivity].
    + split; intro H; [lia | apply IH in H; contradiction].
Qed.

Lemma find_present (s : string) :
  Str.mem c s = true -> 0 <= Str.find c s < Str.len s.
Proof.
  unfold Str.len.
  induction s as [|d r IH]; simpl; [discriminate|].
  destruct (Ascii.eqb d c); simpl; intro H; [lia|].
  specialize (IH H).
  destruct (Z.eqb_spec (Str.find c r) (-1)); lia.
Qed.

Lemma split_never_empty (s : string) : Str.split c s <> [].
Proof.
  destruct s as [|d r]; simpl; [discriminate|].
  destruct (Ascii.eqb d c); [discriminate|].
  destruct (Str.split c r); discriminate.
Qed.

Lemma split_without_separator (s : string) :
  Str.mem c s = false -> Str.split c s = [s].
Proof.
  induction s as [|d r IH]; simpl; [reflexivity|].
  destruct (Ascii.eqb d c); simpl; [discriminate|].
  intro H. rewrite (IH H). reflexivity.
Qed.

(** No part of a split holds a character the whole string lacks. *)
Lemma split_parts_lack (sep : ascii) (s : string) :
  Str.mem c s = false ->
  Forall (fun p => Str.mem c p = false) (Str.split sep s).
Proof.
  induction s as [|d r IH]; simpl; intro H.
  - constructor; [reflexivity | constructor].
  - apply orb_false_iff in H as [Hd Hr]. specialize (IH Hr).
    destruct (Ascii.eqb d sep).
    + constructor; [reflexivity | exact IH].
    + destruct (Str.split sep r) as [|p ps].
      * constructor; [simpl; rewrite Hd; reflexivity | constructor].
      * inversion IH; subst. constructor; [simpl; rewrite Hd; assumption | assumption].
Qed.

Lemma mem_rep (d : ascii) (n : nat) :
  Ascii.eqb d c = false -> Str.mem c (Str.rep d n) = false.
Proof.
  intro H. induction n as [|n IH]; simpl; [reflexivity|].
  rewrite H, IH. reflexivity.
Qed.

Lemma find_after_rep (d : ascii) (n : nat) (r : string) :
  Ascii.eqb d c = false ->
  Str.find c (Str.rep d n ++ String c r) = Z.of_nat n.
Proof.
  intro H. induction n as [|n IH].
  - simpl. rewrite Ascii.eqb_refl. reflexivity.
  - cbn [Str.rep append Str.find]. rewrite H, IH.
    destruct (Z.eqb_spec (Z.of_nat n) (-1)); lia.
Qed.

Lemma length_rep (d : ascii) (n : nat) : String.length (Str.rep d n) = n.
Proof. induction n; simpl; congruence. Qed.

End StrFacts.

Lemma nth_lacks (c : ascii) (parts : list string) (i : nat) :
  Forall (fun p => Str.mem c p = false) parts ->
  Str.mem c (nth i parts EmptyString) = false.
Proof.
  intro H. revert i. induction H as [|p ps Hp Hps IH]; intros [|i]; simpl; auto.
Qed.

(** ** Filter precision analyzer *)

Lemma prec_of_power_of_ten (n : nat) :
  get_prec_just_for_binance_filter (power_of_ten_text n) = Ok (- Z.of_nat n).
Proof.
  unfold get_prec_just_for_binance_filter, power_of_ten_text.
  rewrite split_without_separator
    by (simpl; apply mem_rep; reflexivity).
  cbn [nth Str.find]. rewrite Ascii.eqb_refl. cbn [Z.eqb negb].
  unfold Str.len. cbn [String.length]. rewrite length_rep.
  f_equal. lia.
Qed.

Lemma prec_of_negative_power (m : nat) :
  get_prec_just_for_binance_filter ("0." ++ Str.rep "0" m ++ "1")
  = Ok (Z.of_nat (S m)).
Proof.
  unfold get_prec_just_for_binance_filter.
  assert (Hsplit : Str.split "." ("0." ++ Str.rep "0" m ++ "1")
                   = ["0"; Str.rep "0" m ++ "1"]).
  { cbn [append Str.split]. cbn [Ascii.eqb Bool.eqb].
    rewrite split_without_separator; [reflexivity|].
    induction m as [|m IH]; simpl; [reflexivity | exact IH]. }
  rewrite Hsplit. cbn [nth List.length Nat.eqb].
  change (Str.find "1" "0") with (-1). cbn [Z.eqb Pos.eqb negb].
  rewrite (find_after_rep "1" "0" m EmptyString eq_refl).
  destruct (Z.eqb_spec (Z.of_nat m) (-1)) as [E|E]; [lia|].
  cbn [negb]. f_equal. lia.
Qed.

(** C5.  On the decimal text of [10^n], a one followed by [n] zeros, the
    analyzer returns [-n]; on [0.] followed by [n - 1] zeros and a one, with
    [n >= 1], it returns [n]. *)
Theorem analyzer_on_powers_of_ten (n : nat) :
  get_prec_just_for_binance_filter (power_of_ten_text n) = Ok (- Z.of_nat n)
  /\ ((1 <= n)%nat ->
      get_prec_just_for_binance_filter (negative_power_text n) = Ok (Z.of_nat n)).
Proof.
  split; [apply prec_of_power_of_ten|].
  intro Hn. unfold negative_power_text.
  destruct n as [|m]; [lia|].
  replace (S m - 1)%nat with m by lia.
  apply prec_of_negative_power.
Qed.

Lemma analyzer_on_powers_of_ten_witness :
  get_prec_just_for_binance_filter "1000" = Ok (-3)
  /\ get_prec_just_for_binance_filter "0.001" = Ok 3.
Proof.
  destruct (analyzer_on_powers_of_ten 3) as [Hpos Hneg].
  split; [exact Hpos | apply Hneg; lia].
Defined.

(** C6.  A string without any digit [1] is rejected with the format error
    that carries it ("unknown size"), whether or not it has a fraction. *)
Theorem analyzer_rejects_without_one (size : string) :
  Str.mem "1" size = false ->
  get_prec_just_for_binance_filter size = Raise (FormatError size).
Proof.
  intro H. unfold get_prec_just_for_binance_filter.
  pose proof (split_parts_lack "1" "." size H) as Hparts.
  pose proof (proj2 (find_absent "1" _) (nth_lacks "1" _ 0 Hparts)) as H0.
  pose proof (proj2 (find_absent "1" _) (nth_lacks "1" _ 1 Hparts)) as H1.
  rewrite H0, H1. cbn [Z.eqb Pos.eqb negb].
  destruct (List.length (Str.split "." size) =? 1)%nat; reflexivity.
Qed.

Lemma analyzer_rejects_without_one_witness :
  get_prec_just_for_binance_filter "2.5" = Raise (FormatError "2.5")
  /\ get_prec_just_for_binance_filter "200" = Raise (FormatError "200").
Proof.
  split; apply analyzer_rejects_without_one; reflexivity.
Defined.

Lemma digit_range (c : ascii) :
  is_digit c = true -> 0 <= Z.of_nat (nat_of_ascii c) - 48 <= 9.
Proof.
  unfold is_digit. intro H. apply andb_true_iff in H as [Hlo Hhi].
  apply Nat.leb_le in Hlo, Hhi. lia.
Qed.

Lemma digits_value_positive (s : string) (acc : Z) :
  all_digits s = true -> 0 <= acc ->
  0 < acc \/ Str.mem "1" s = true ->
  1 <= digits_value acc s.
Proof.
  revert acc. induction s as [|c r IH]; intros acc Hd Hacc Hone.
  - simpl in *. destruct Hone as [Hpos|Habs]; [lia | discriminate].
  - cbn [all_digits] in Hd. apply andb_true_iff in Hd as [Hc Hr].
    cbn [digits_value]. pose proof (digit_range c Hc) as Hrange.
    apply IH; [exact Hr | lia |].
    destruct Hone as [Hpos|Hmem]; [left; lia|].
    cbn [Str.mem] in Hmem. apply orb_true_iff in Hmem as [Hc1|Hmem].
    + apply Ascii.eqb_eq in Hc1. subst c. left.
      change (Z.of_nat (nat_of_ascii "1") - 48) with 1. lia.
    + right. exact Hmem.
Qed.

(** The result comes from the integer part when it holds a [1], and from
    the fraction otherwise. *)
Lemma analyzer_result_shape (size : string) (p : Z) :
  get_prec_just_for_binance_filter size = Ok p ->
  (Str.mem "1" (integer_part size) = true /\
   p = Str.find "1" (integer_part size) - Str.len (integer_part size) + 1)
  \/ (Str.mem "1" (integer_part size) = false /\
      p = Str.find "1" (nth 1 (Str.split "." size) EmptyString) + 1 /\
      Str.mem "1" (nth 1 (Str.split "." size) EmptyString) = true).
Proof.
  unfold get_prec_just_for_binance_filter, integer_part.
  set (ip := nth 0 (Str.split "." size) EmptyString).
  set (dp := nth 1 (Str.split "." size) EmptyString).
  destruct (Str.mem "1" ip) eqn:Hip.
  - pose proof (find_present "1" ip Hip) as Hb.
    destruct (Z.eqb_spec (Str.find "1" ip) (-1)) as [E|E]; [lia|].
    cbn [negb]. intro H. injection H as <-. left. split; reflexivity.
  - rewrite (proj2 (find_absent "1" ip) Hip). cbn [Z.eqb Pos.eqb negb].
    destruct (List.length (Str.split "." size) =? 1)%nat; [discriminate|].
    destruct (Z.eqb_spec (Str.find "1" dp) (-1)) as [E|E]; [discriminate|].
    cbn [negb]. intro H. injection H as <-. right.
    split; [reflexivity | split; [reflexivity|]].
    destruct (Str.mem "1" dp) eqn:Hdp; [reflexivity|].
    apply find_absent in Hdp. contradiction.
Qed.

(** C7, as the code has it.  The precision the analyzer returns is at most
    zero when the digit [1] sits in the integer part and positive otherwise;
    so it is negative only when the digit [1] sits in the integer part, which,
    when the integer part is a string of decimal digits, then denotes a
    value of at least one; and for a fractional step it is positive. *)
Theorem analyzer_sign_convention (size : string) (p : Z) :
  get_prec_just_for_binance_filter size = Ok p ->
  (Str.mem "1" (integer_part size) = true -> p <= 0)
  /\ (Str.mem "1" (integer_part size) = false -> 0 < p)
  /\ (p < 0 -> Str.mem "1" (integer_part size) = true)
  /\ (p < 0 -> all_digits (integer_part size) = true ->
      value_at_least_one size = true)
  /\ (fractional_step size = true -> 0 < p).
Proof.
  intro H. apply analyzer_result_shape in H.
  assert (Hint : Str.mem "1" (integer_part size) = true -> p <= 0).
  { intro Hm. destruct H as [[_ ->]|[Hno _]]; [|congruence].
    pose proof (find_present "1" _ Hm). lia. }
  assert (Hfrac : Str.mem "1" (integer_part size) = false -> 0 < p).
  { intro Hm. destruct H as [[Hyes _]|[_ [-> Hdp]]]; [congruence|].
    pose proof (find_present "1" _ Hdp). lia. }
  assert (Hneg : p < 0 -> Str.mem "1" (integer_part size) = true).
  { intro Hp. destruct (Str.mem "1" (integer_part size)) eqn:Hm; [reflexivity|].
    specialize (Hfrac eq_refl). lia. }
  split; [exact Hint | split; [exact Hfrac | split; [exact Hneg | split]]].
  - intros Hp Hdig. unfold value_at_least_one.
    pose proof (Hneg Hp) as Hm. rewrite Hdig.
    pose proof (digits_value_positive _ 0 Hdig (Z.le_refl 0) (or_intror Hm)) as Hv.
    apply Z.leb_le in Hv. rewrite Hv.
    destruct (integer_part size); [discriminate Hm | reflexivity].
  - unfold fractional_step. intro Hf.
    apply andb_true_iff in Hf as [Hf _]. apply andb_true_iff in Hf as [Hf Hzero].
    apply andb_true_iff in Hf as [_ Hdig]. apply Z.eqb_eq in Hzero.
    apply Hfrac. destruct (Str.mem "1" (integer_part size)) eqn:Hm; [|reflexivity].
    pose proof (digits_value_positive _ 0 Hdig (Z.le_refl 0) (or_intror Hm)). lia.
Qed.

Lemma analyzer_sign_convention_witness :
  (exists p, get_prec_just_for_binance_filter "100" = Ok p /\ p <= 0
             /\ Str.mem "1" (integer_part "100") = true
             /\ value_at_least_one "100" = true)
  /\ (exists p, get_prec_just_for_binance_filter "0.001" = Ok p /\ 0 < p).
Proof.
  destruct (analyzer_sign_convention "100" (-2) eq_refl)
    as [Hint [_ [Hone [Hneg _]]]].
  destruct (analyzer_sign_convention "0.001" 3 eq_refl) as [_ [_ [_ [_ Hfrac]]]].
  split.
  - exists (-2). split; [reflexivity|].
    split; [apply Hint; reflexivity|].
    split; [apply Hone; lia | apply Hneg; [lia | reflexivity]].
  - exists 3. split; [reflexivity | apply Hfrac; reflexivity].
Defined.

(** C7, as the specification words it, fails: ["100"] denotes a value of at
    least one and is not a fractional step, and its precision is [-2]. *)
Lemma sign_convention_as_stated_fails :
  ~ (forall size p,
        get_prec_just_for_binance_filter size = Ok p ->
        (value_at_least_one size = true -> 0 <= p)
        /\ (p < 0 -> fractional_step size = true)).
Proof.
  intro H. destruct (H "100" (-2) eq_refl) as [Hge _].
  specialize (Hge eq_refl). lia.
Qed.

(** ** Request normalizer *)

Lemma append_assoc (a b c : string) : (a ++ b) ++ c = a ++ (b ++ c).
Proof. induction a as [|x a IH]; simpl; [reflexivity | rewrite IH; reflexivity]. Qed.

Lemma drop_last_snoc (s : string) (c : ascii) :
  Str.drop_last (s ++ String c EmptyString) = s.
Proof.
  induction s as [|x s IH]; [reflexivity|].
  cbn [append Str.drop_last]. rewrite IH.
  destruct (s ++ String c EmptyString) eqn:E; [|reflexivity].
  destruct s; discriminate E.
Qed.

Lemma append_empty (a : string) : a ++ EmptyString = a.
Proof. induction a as [|x a IH]; simpl; congruence. Qed.

Lemma literal_loop_on_strings (ts : list string) (acc : string) :
  fold_left (fun s item => match item with
                           | VStr t => s ++ dquote ++ t ++ dquote ++ ","
                           | _ => s ++ py_str item
                           end) (map VStr ts) acc
  = acc ++ with_trailing_commas ts.
Proof.
  revert acc. induction ts as [|t r IH]; intro acc;
    cbn [map fold_left with_trailing_commas].
  - symmetry. apply append_empty.
  - rewrite IH. rewrite !append_assoc. reflexivity.
Qed.

Lemma trailing_commas_join (t : string) (r : list string) :
  with_trailing_commas (t :: r) = join "," (map quoted (t :: r)) ++ ",".
Proof.
  revert t. induction r as [|u r IH]; intro t.
  - cbn [with_trailing_commas map join]. unfold quoted.
    rewrite !append_assoc. reflexivity.
  - change (with_trailing_commas (t :: u :: r))
      with (dquote ++ t ++ dquote ++ "," ++ with_trailing_commas (u :: r)).
    rewrite IH.
    change (join "," (map quoted (t :: u :: r)))
      with ((dquote ++ t ++ dquote) ++ "," ++ join "," (map quoted (u :: r))).
    rewrite !append_assoc. reflexivity.
Qed.

(** On a non-empty list of strings the code builds the literal the
    specification describes. *)
Lemma list_literal_of_strings (t : string) (r : list string) :
  list_literal (map VStr (t :: r)) = spec_list_literal (map VStr (t :: r)).
Proof.
  unfold list_literal, spec_list_literal.
  rewrite literal_loop_on_strings, trailing_commas_join.
  rewrite <- append_assoc, drop_last_snoc, append_assoc.
  rewrite map_map. reflexivity.
Qed.

Lemma strings_of (l : list PyVal) :
  Forall is_str l -> exists ts, l = map VStr ts.
Proof.
  induction 1 as [|v l [s ->] _ [ts ->]].
  - exists []. reflexivity.
  - exists (s :: ts). reflexivity.
Qed.

Lemma tidy_value_meets_spec (v : PyVal) :
  (forall l, v = VList l -> Forall is_str l) ->
  tidy_value v = spec_tidy_value v.
Proof.
  intro H. destruct v as [|[|]|z|s|l|d|d]; try reflexivity.
  destruct (strings_of l (H l eq_refl)) as [[|t r] ->]; [reflexivity|].
  cbn [tidy_value spec_tidy_value map].
  f_equal. apply (list_literal_of_strings t r).
Qed.

Lemma dict_set_in_place (k : string) (v old : PyVal) (done rest : dict) :
  ~ In k (keys done) ->
  dict_set k v (done ++ (k, old) :: rest)%list = (done ++ (k, v) :: rest)%list.
Proof.
  induction done as [|[k' v'] done IH]; intro Hk; simpl.
  - rewrite String.eqb_refl. reflexivity.
  - simpl in Hk. destruct (String.eqb_spec k' k) as [E|E]; [tauto|].
    rewrite IH by tauto. reflexivity.
Qed.

Lemma tidy_entry_in_place (k : string) (v : PyVal) (done rest : dict) :
  ~ In k (keys done) ->
  tidy_entry (done ++ (k, v) :: rest)%list (k, v)
  = (done ++ (k, tidy_value v) :: rest)%list.
Proof.
  intro Hk. unfold tidy_entry.
  destruct v as [|b|z|s|[|x l]|d|d]; try reflexivity;
    apply dict_set_in_place; exact Hk.
Qed.

(** The loop rewrites each entry where it stands. *)
Lemma tidy_loop_is_map (l done : dict) :
  NoDup (keys l) ->
  (forall k, In k (keys done) -> ~ In k (keys l)) ->
  fold_left tidy_entry l (done ++ l)%list
  = (done ++ map (fun kv => (fst kv, tidy_value (snd kv))) l)%list.
Proof.
  revert done. induction l as [|[k v] r IH]; intros done Hnd Hdisj; [reflexivity|].
  cbn [fold_left map fst snd].
  rewrite tidy_entry_in_place
    by (intro Hin; apply (Hdisj k Hin); left; reflexivity).
  inversion Hnd as [|? ? Hk Hr]; subst.
  change (done ++ (k, tidy_value v) :: r)%list
    with (done ++ [(k, tidy_value v)] ++ r)%list.
  rewrite List.app_assoc. rewrite IH; [rewrite <- List.app_assoc; reflexivity | exact Hr |].
  intros k' Hin. unfold keys in Hin. rewrite map_app in Hin.
  apply in_app_or in Hin as [Hin|[<-|[]]]; [|exact Hk].
  intro Hr'. apply (Hdisj k' Hin). right. exact Hr'.
Qed.

Lemma keys_of_filter (f : string * PyVal -> bool) (l : dict) (k : string) :
  In k (keys (filter f l)) -> In k (keys l).
Proof.
  unfold keys. rewrite !in_map_iff. intros [kv [E Hin]].
  apply filter_In in Hin as [Hin _]. exists kv. split; assumption.
Qed.

Lemma filter_keeps_nodup (f : string * PyVal -> bool) (l : dict) :
  NoDup (keys l) -> NoDup (keys (filter f l)).
Proof.
  induction l as [|[k v] r IH]; intro H; [constructor|].
  inversion H as [|? ? Hk Hr]; subst. simpl.
  destruct (f (k, v)); [|apply IH; exact Hr].
  simpl. constructor; [|apply IH; exact Hr].
  intro Hin. apply Hk. apply (keys_of_filter f). exact Hin.
Qed.

(** On a mapping, whose keys are distinct, the normalizer drops the null
    entries and rewrites every other value by [tidy_value], in order. *)
Lemma tidy_request_params_is_map (params : dict) :
  NoDup (keys params) ->
  tidy_request_params params
  = map (fun kv => (fst kv, tidy_value (snd kv))) (non_null params).
Proof.
  intro H. unfold tidy_request_params. fold (non_null params).
  apply (tidy_loop_is_map (non_null params) []).
  - apply filter_keeps_nodup. exact H.
  - intros k [].
Qed.

(** Where every list holds strings only, the normalizer does what section
    4.2 of the specification says. *)
Lemma normalizer_meets_spec_on_string_lists (params : dict) :
  NoDup (keys params) -> lists_hold_strings params ->
  tidy_request_params params = spec_tidy_request_params params.
Proof.
  intros Hnd Hstr. rewrite tidy_request_params_is_map by exact Hnd.
  unfold spec_tidy_request_params. fold (non_null params).
  apply map_ext_in. intros [k v] Hin. cbn [fst snd]. f_equal.
  apply tidy_value_meets_spec. intros l ->.
  apply (Hstr k). unfold non_null in Hin. apply filter_In in Hin. tauto.
Qed.

Lemma dict_get_absent (d : dict) (k : string) :
  ~ In k (keys d) -> dict_get d k = None.
Proof.
  induction d as [|[k' v] r IH]; intro H; [reflexivity|].
  simpl in *. destruct (String.eqb_spec k' k); [tauto | apply IH; tauto].
Qed.

Lemma distinct_keys_bind_once (d : dict) (k : string) (v v' : PyVal) :
  NoDup (keys d) -> In (k, v) d -> In (k, v') d -> v = v'.
Proof.
  induction d as [|[k0 v0] r IH]; intros Hnd H1 H2; [destruct H1|].
  inversion Hnd as [|? ? Hk Hr]; subst.
  assert (Hkeys : forall x, In (k0, x) r -> False).
  { intros x Hx. apply Hk. unfold keys. apply in_map_iff.
    exists (k0, x). split; [reflexivity | exact Hx]. }
  destruct H1 as [E1|H1], H2 as [E2|H2].
  - congruence.
  - injection E1 as -> ->. destruct (Hkeys _ H2).
  - injection E2 as -> ->. destruct (Hkeys _ H1).
  - apply IH; assumption.
Qed.

(** A null entry never reaches the result. *)
Lemma normalizer_drops_null (params : dict) (k : string) :
  NoDup (keys params) -> In (k, VNone) params ->
  dict_get (tidy_request_params params) k = None.
Proof.
  intros Hnd Hin. rewrite tidy_request_params_is_map by exact Hnd.
  apply dict_get_absent. unfold keys. rewrite map_map. cbn [fst].
  rewrite in_map_iff. intros [[k' v] [E Hkv]]. cbn [fst] in E. subst k'.
  unfold non_null in Hkv. apply filter_In in Hkv as [Hkv Hv].
  rewrite <- (distinct_keys_bind_once params k VNone v Hnd Hin Hkv) in Hv.
  discriminate Hv.
Qed.

(** C4 at the specification's own example.  The normalizer drops [b] and
    turns [a] into [true], but the literal it builds for [c] is [[12]]:
    line 42 appends a number without the comma that line 44 then removes,
    so the last digit goes instead.  The specification asks for [[1,2,3]]. *)
Theorem normalizer_on_example :
  tidy_request_params example_params = [("a", VStr "true"); ("c", VStr "[12]")]
  /\ spec_tidy_request_params example_params
     = [("a", VStr "true"); ("c", VStr "[1,2,3]")]
  /\ dict_get (tidy_request_params example_params) "b" = None
  /\ list_literal [VStr "BTCUSDT"; VInt 1] = "[" ++ quoted "BTCUSDT" ++ ",]".
Proof. repeat split; reflexivity. Qed.

(** ** Filter-list analysis and domain mapper *)

(** Whatever the filters are, what the analysis returns is the [dict] built
    by [ExchangeSymbolFiltersInfo]. *)
Lemma analysis_returns_a_dict (filters info : PyVal) :
  analyze_exchange_symbol_filters filters = Ok info ->
  exists p q c, info = ExchangeSymbolFiltersInfo p q c.
Proof.
  unfold analyze_exchange_symbol_filters.
  destruct (py_iter filters) as [items|e]; [|discriminate].
  cbn [bind]. destruct (for_each filter_step items (0, 0)) as [acc|e]; [|discriminate].
  cbn [bind]. intro H. injection H as <-. eauto.
Qed.

Section MapperFacts.

Variables BINANCE SPOT TRADING MARKET : PyVal.
Variable py_eq : PyVal -> PyVal -> bool.

(** The mapper reads [filters_info.q_prec], and a [dict] has no such
    attribute: no argument makes it return. *)
Lemma mapper_always_raises (exchange_symbol : PyVal) :
  exists e,
    to_cex_symbol BINANCE SPOT TRADING MARKET py_eq exchange_symbol = Raise e.
Proof.
  unfold to_cex_symbol.
  destruct (getattr exchange_symbol "filters") as [filters|e];
    cbn [bind]; [|eauto].
  destruct (analyze_exchange_symbol_filters filters) as [info|e] eqn:Hinfo;
    cbn [bind]; [|eauto].
  apply analysis_returns_a_dict in Hinfo as [p [q [c ->]]].
  destruct (getattr exchange_symbol "base_asset"); cbn [bind]; [|eauto].
  destruct (getattr exchange_symbol "quote_asset"); cbn [bind]; [|eauto].
  destruct (getattr exchange_symbol "symbol"); cbn [bind]; [|eauto].
  eexists. reflexivity.
Qed.

(** C8 at the specification's own filter list.  The filter analysis finds
    price precision 3 and quantity precision 0, but the mapper does not
    deliver them: on the record as decoded, a [dict], it raises at
    [exchange_symbol.filters]; on a record with attributes it raises at
    [filters_info.q_prec]; and it returns a symbol for no argument at all. *)
Theorem mapper_on_example :
  analyze_exchange_symbol_filters example_filters
  = Ok (ExchangeSymbolFiltersInfo 3 0 false)
  /\ to_cex_symbol BINANCE SPOT TRADING MARKET py_eq example_symbol_record
     = Raise (AttributeError "filters")
  /\ to_cex_symbol BINANCE SPOT TRADING MARKET py_eq example_symbol_object
     = Raise (AttributeError "q_prec")
  /\ forall exchange_symbol, exists e,
    to_cex_symbol BINANCE SPOT TRADING MARKET py_eq exchange_symbol = Raise e.
Proof.
  split; [reflexivity|]. split; [reflexivity|]. split; [reflexivity|].
  exact mapper_always_raises.
Qed.

End MapperFacts.

(** ** Transport client *)

Lemma http_calls_app (a b : list Event) :
  http_calls (a ++ b)%list = (http_calls a + http_calls b)%nat.
Proof. unfold http_calls. rewrite filter_app, length_app. reflexivity. Qed.

Lemma sleeps_app (a b : list Event) :
  sleeps (a ++ b)%list = (sleeps a ++ sleeps b)%list.
Proof. unfold sleeps. apply flat_map_app. Qed.

Lemma inject_reaches (req : Request) :
  reaches_transport req = true -> inject_time_unit req = Ok (injected req).
Proof.
  unfold reaches_transport, inject_time_unit, injected.
  destruct (resp_in_microseconds req); [|reflexivity].
  destruct (headers req); [reflexivity | discriminate].
Qed.

Lemma inject_only_ok_when_reaching (req req1 : Request) :
  inject_time_unit req = Ok req1 ->
  reaches_transport req = true /\ req1 = injected req.
Proof.
  unfold reaches_transport, inject_time_unit, injected.
  destruct (resp_in_microseconds req); [|intro H; injection H as <-; auto].
  destruct (headers req); [|discriminate].
  intro H; injection H as <-; auto.
Qed.

Lemma injected_retry (req : Request) : retry (injected req) = retry req.
Proof. unfold injected. destruct (resp_in_microseconds req); reflexivity. Qed.

Lemma injected_method (req : Request) : method (injected req) = method req.
Proof. unfold injected. destruct (resp_in_microseconds req); reflexivity. Qed.

(** Once past the header injection, a descriptor stays past it. *)
Lemma retried_reaches (req : Request) (n : Z) :
  reaches_transport req = true ->
  reaches_transport (set_retry (injected req) n) = true.
Proof.
  unfold reaches_transport, injected.
  destruct (resp_in_microseconds req) eqn:E; cbn.
  - destruct (headers req); [intros _|discriminate]. rewrite E. reflexivity.
  - rewrite E. reflexivity.
Qed.

Section TransportFacts.

Variable urlencode : dict -> string.
Variable json_loads : string -> option PyVal.
Variable transport : nat -> Outcome.

(** A pass that ends in [return request(req)] found the counter below 5,
    raised it by one, issued one HTTP call and slept one second. *)
Lemma attempt_again (req req' : Request) (tr tr' : list Event) :
  attempt urlencode json_loads transport req tr = Again req' tr' ->
  reaches_transport req = true /\ retry req < 5
  /\ req' = set_retry (injected req) (retry req + 1)
  /\ tr' = ((tr ++ [http_event urlencode req]) ++ [EvSleep 1])%list.
Proof.
  unfold attempt, http_event.
  destruct (inject_time_unit req) as [req1|e] eqn:Hinj; [|discriminate].
  apply inject_only_ok_when_reaching in Hinj as [Hreach ->].
  rewrite injected_method, injected_retry.
  destruct (transport (http_calls tr)) as [e|sc reason body].
  - destruct (Z.ltb_spec (retry req) 5) as [Hlt|Hge]; [|discriminate].
    intro H. injection H as <- <-. auto.
  - destruct (negb (sc =? 200)).
    + destruct (json_loads body) as [[| | | | |d|]|]; try discriminate.
      destruct (is_recv_window_error _); [|discriminate]. cbn [andb].
      destruct (Z.ltb_spec (retry req) 5) as [Hlt|Hge]; [|discriminate].
      intro H. injection H as <- <-. auto.
    + destruct body; [discriminate|]. destruct (json_loads _); discriminate.
Qed.

(** A pass that ends the call left the counter alone, did not sleep, and
    issued at most one HTTP call. *)
Lemma attempt_done (req req' : Request) (tr tr' : list Event) (res : Res Response) :
  attempt urlencode json_loads transport req tr = Done (res, req', tr') ->
  retry req' = retry req /\ sleeps tr' = sleeps tr
  /\ (http_calls tr' <= http_calls tr + 1)%nat.
Proof.
  unfold attempt.
  destruct (inject_time_unit req) as [req1|e] eqn:Hinj.
  - apply inject_only_ok_when_reaching in Hinj as [Hreach ->].
    assert (Hsl : forall ev, is_http ev = true ->
               sleeps (tr ++ [ev])%list = sleeps tr
               /\ (http_calls (tr ++ [ev])%list <= http_calls tr + 1)%nat).
    { intros ev Hev. rewrite sleeps_app, http_calls_app.
      destruct ev; [|discriminate]. cbn. rewrite app_nil_r. split; [reflexivity | lia]. }
    specialize (Hsl (EvHttp (method (injected req)) (build_url urlencode req)
                            (headers (injected req))) eq_refl).
    destruct (transport (http_calls tr)) as [e|sc reason body].
    + destruct (retry (injected req) <? 5); [discriminate|].
      intro H. injection H as <- <- <-. rewrite injected_retry. tauto.
    + destruct (negb (sc =? 200)).
      * destruct (json_loads body) as [[| | | | |d|]|];
          try (intro H; injection H as <- <- <-; rewrite injected_retry; tauto).
        destruct (is_recv_window_error _ && _); [discriminate|].
        intro H; injection H as <- <- <-; rewrite injected_retry; tauto.
      * destruct body; [|destruct (json_loads _)];
          intro H; injection H as <- <- <-; rewrite injected_retry; tauto.
  - intro H. injection H as <- <- <-. split; [reflexivity | split; [reflexivity | lia]].
Qed.

(** The equation of [request]: the body, then the call itself again. *)
Lemma request_unfold (req : Request) (tr : list Event) :
  request urlencode json_loads transport req tr
  = match attempt urlencode json_loads transport req tr with
    | Done r => Some r
    | Again req' tr' => request urlencode json_loads transport req' tr'
    end.
Proof.
  unfold request at 1. unfold request_fuel. cbn [request_loop].
  destruct (attempt urlencode json_loads transport req tr) as [r|req' tr'] eqn:Ha;
    [reflexivity|].
  apply attempt_again in Ha as (_ & Hlt & -> & _).
  unfold request, request_fuel. cbn [retry set_retry].
  replace (Z.to_nat (5 - retry req)) with (S (Z.to_nat (5 - (retry req + 1)))) by lia.
  reflexivity.
Qed.

(** [request] returns or raises: its fuel always suffices. *)
Lemma request_total (req : Request) (tr : list Event) :
  exists r, request urlencode json_loads transport req tr = Some r.
Proof.
  remember (Z.to_nat (5 - retry req)) as n eqn:Hn.
  revert req tr Hn. induction n as [|n IH]; intros req tr Hn;
    rewrite request_unfold;
    destruct (attempt urlencode json_loads transport req tr) as [r|req' tr'] eqn:Ha;
    eauto; apply attempt_again in Ha as (_ & Hlt & -> & _).
  - lia.
  - apply IH. cbn [retry set_retry]. lia.
Qed.

(** The account of a finished call: [k] retries raised the counter by [k],
    slept [k] times one second and issued at most [k + 1] HTTP calls. *)
Lemma loop_accounting (fuel : nat) :
  forall req tr res req' tr',
    request_loop urlencode json_loads transport fuel req tr = Some (res, req', tr') ->
    exists k : nat,
      retry req' = retry req + Z.of_nat k
      /\ (k = 0%nat \/ retry req' <= 5)
      /\ sleeps tr' = (sleeps tr ++ repeat 1 k)%list
      /\ (http_calls tr' <= http_calls tr + k + 1)%nat.
Proof.
  induction fuel as [|fuel IH]; intros req tr res req' tr'; [discriminate|].
  cbn [request_loop].
  destruct (attempt urlencode json_loads transport req tr) as [r|req1 tr1] eqn:Ha.
  - intro H. injection H as ->. apply attempt_done in Ha as (Hr & Hs & Hh).
    exists 0%nat. cbn [repeat]. rewrite app_nil_r.
    repeat split; [lia | left; reflexivity | exact Hs | lia].
  - intro H. apply IH in H as (k & Hr & Hk & Hs & Hh).
    apply attempt_again in Ha as (_ & Hlt & -> & ->).
    cbn [retry set_retry] in Hr, Hk.
    rewrite !sleeps_app in Hs. rewrite !http_calls_app in Hh.
    cbn in Hs, Hh. rewrite app_nil_r in Hs.
    exists (S k). repeat split.
    + lia.
    + right. destruct Hk as [->|Hk]; lia.
    + rewrite Hs, <- List.app_assoc. reflexivity.
    + lia.
Qed.

End TransportFacts.

Section AttemptCases.

Variable urlencode : dict -> string.
Variable json_loads : string -> option PyVal.
Variable transport : nat -> Outcome.
Variable req : Request.
Variable tr : list Event.
Hypothesis Hreach : reaches_transport req = true.

Lemma attempt_connection_failure (cause : string) :
  transport (http_calls tr) = ConnectionError cause ->
  attempt urlencode json_loads transport req tr
  = if retry req <? 5
    then Again (set_retry (injected req) (retry req + 1))
               ((tr ++ [http_event urlencode req]) ++ [EvSleep 1])%list
    else Done (Raise (RetriesExhausted (retry req) cause), injected req,
               (tr ++ [http_event urlencode req])%list).
Proof.
  intro Ht. unfold attempt, http_event.
  rewrite (inject_reaches req Hreach), Ht, injected_method, injected_retry.
  reflexivity.
Qed.

Lemma attempt_error_object (sc : Z) (reason body : string) (error_data : dict) :
  transport (http_calls tr) = Reply sc reason body ->
  sc <> 200 ->
  json_loads body = Some (VDict error_data) ->
  attempt urlencode json_loads transport req tr
  = let code := dict_get_default error_data "code" (VInt 0) in
    let msg := dict_get_default error_data "msg" (VStr EmptyString) in
    if is_recv_window_error code && (retry req <? 5)
    then Again (set_retry (injected req) (retry req + 1))
               ((tr ++ [http_event urlencode req]) ++ [EvSleep 1])%list
    else Done (Raise (ApiError code msg), injected req,
               (tr ++ [http_event urlencode req])%list).
Proof.
  intros Ht Hsc Hj. unfold attempt, http_event.
  rewrite (inject_reaches req Hreach), Ht, injected_method, injected_retry.
  destruct (Z.eqb_spec sc 200) as [E|E]; [contradiction|].
  cbn [negb]. rewrite Hj. reflexivity.
Qed.

Lemma attempt_success (reason body : string) :
  transport (http_calls tr) = Reply 200 reason body ->
  attempt urlencode json_loads transport req tr
  = Done (match body with
          | EmptyString =>
              Ok (mkResponse 200 reason (VInt 0) (VStr EmptyString) VNone)
          | _ =>
              match json_loads body with
              | Some v => Ok (mkResponse 200 reason (VInt 0) (VStr EmptyString) v)
              | None => Raise (MalformedError true body)
              end
          end, injected req, (tr ++ [http_event urlencode req])%list).
Proof.
  intro Ht. unfold attempt, http_event.
  rewrite (inject_reaches req Hreach), Ht, injected_method.
  cbn [Z.eqb Pos.eqb negb].
  destruct body; [reflexivity|]. destruct (json_loads _); reflexivity.
Qed.

(** Either kind of retryable failure is answered the same way. *)
Lemma attempt_retryable :
  connection_failure (transport (http_calls tr))
  \/ recv_window_reply json_loads (transport (http_calls tr)) ->
  attempt urlencode json_loads transport req tr
  = if retry req <? 5
    then Again (set_retry (injected req) (retry req + 1))
               ((tr ++ [http_event urlencode req]) ++ [EvSleep 1])%list
    else Done (Raise (terminal_error json_loads (retry req)
                                     (transport (http_calls tr))),
               injected req, (tr ++ [http_event urlencode req])%list).
Proof.
  intros [[cause Ht]|(sc & reason & body & d & Ht & Hsc & Hj & Hcode)].
  - rewrite (attempt_connection_failure cause Ht), Ht. reflexivity.
  - rewrite (attempt_error_object sc reason body d Ht Hsc Hj), Ht.
    cbn [terminal_error]. rewrite Hj.
    unfold dict_get_default at 1 3. rewrite Hcode.
    cbn [is_recv_window_error Z.eqb Pos.eqb andb]. reflexivity.
Qed.

End AttemptCases.

Lemma http_calls_after_call (urlencode : dict -> string) (req : Request)
    (tr : list Event) :
  http_calls (tr ++ [http_event urlencode req])%list = S (http_calls tr).
Proof. rewrite http_calls_app. cbn. lia. Qed.

Lemma sleeps_after_call (urlencode : dict -> string) (req : Request)
    (tr : list Event) :
  sleeps (tr ++ [http_event urlencode req])%list = sleeps tr.
Proof. rewrite sleeps_app. cbn. apply app_nil_r. Qed.

Lemma http_calls_after_sleep (tr : list Event) (s : Z) :
  http_calls (tr ++ [EvSleep s])%list = http_calls tr.
Proof. rewrite http_calls_app. cbn. lia. Qed.

Lemma sleeps_after_sleep (tr : list Event) (s : Z) :
  sleeps (tr ++ [EvSleep s])%list = (sleeps tr ++ [s])%list.
Proof. rewrite sleeps_app. reflexivity. Qed.

(** When every attempt meets a retryable failure, a descriptor with [k]
    retries left makes [k + 1] HTTP calls, sleeps [k] times one second and
    raises what its last attempt met. *)
Lemma exhausting_run (urlencode : dict -> string)
    (json_loads : string -> option PyVal) (transport : nat -> Outcome) :
  (forall n, connection_failure (transport n)
             \/ recv_window_reply json_loads (transport n)) ->
  forall (k : nat) (req : Request) (tr : list Event),
    reaches_transport req = true ->
    retry req = 5 - Z.of_nat k ->
    exists req' tr',
      request urlencode json_loads transport req tr
      = Some (Raise (terminal_error json_loads 5
                                    (transport (http_calls tr + k)%nat)),
              req', tr')
      /\ retry req' = 5
      /\ http_calls tr' = (http_calls tr + k + 1)%nat
      /\ sleeps tr' = (sleeps tr ++ repeat 1 k)%list.
Proof.
  intros Hfail k. induction k as [|k IH]; intros req tr Hreach Hretry;
    rewrite request_unfold, (attempt_retryable _ _ _ _ _ Hreach (Hfail _)).
  - destruct (Z.ltb_spec (retry req) 5) as [Hlt|Hge]; [lia|].
    exists (injected req), (tr ++ [http_event urlencode req])%list.
    rewrite Nat.add_0_r, injected_retry, http_calls_after_call, sleeps_after_call.
    replace (retry req) with 5 by lia. cbn [repeat]. rewrite app_nil_r.
    split; [reflexivity|]. split; [lia|]. split; [lia | reflexivity].
  - destruct (Z.ltb_spec (retry req) 5) as [Hlt|Hge]; [|lia].
    destruct (IH (set_retry (injected req) (retry req + 1))
                 ((tr ++ [http_event urlencode req]) ++ [EvSleep 1])%list)
      as (req' & tr' & Hrun & Hr & Hh & Hs).
    + apply retried_reaches. exact Hreach.
    + cbn [retry set_retry]. lia.
    + rewrite http_calls_after_sleep, http_calls_after_call in Hrun, Hh.
      rewrite sleeps_after_sleep, sleeps_after_call in Hs.
      exists req', tr'. rewrite Hrun, Hh, Hs.
      replace (S (http_calls tr) + k)%nat with (http_calls tr + S k)%nat by lia.
      split; [reflexivity|]. split; [exact Hr|]. split; [lia|].
      rewrite <- List.app_assoc. reflexivity.
Qed.

Lemma recv_window_code (c : PyVal) :
  is_recv_window_error c = true <-> c = VInt (-1021).
Proof.
  destruct c as [| |z| | | |]; cbn; try (split; [discriminate | discriminate]).
  rewrite Z.eqb_eq. split; [intros ->; reflexivity | intro H; injection H; auto].
Qed.

(** C10.  With the microsecond flag set and no header mapping, the call
    raises the type error of the item assignment; the trace is the one it
    started with, so no HTTP request was issued, and the descriptor is
    untouched. *)
Theorem microsecond_flag_needs_headers
    (urlencode : dict -> string) (json_loads : string -> option PyVal)
    (transport : nat -> Outcome) (req : Request) (tr : list Event) :
  resp_in_microseconds req = true ->
  headers req = None ->
  request urlencode json_loads transport req tr
  = Some (Raise (TypeError "'NoneType' object does not support item assignment"),
          req, tr).
Proof.
  intros Hflag Hnone. rewrite request_unfold.
  unfold attempt, inject_time_unit. rewrite Hflag, Hnone. reflexivity.
Qed.

Lemma microsecond_flag_needs_headers_witness :
  request urlencode_unescaped Json.loads (fun _ => Reply 200 "OK" server_time_body)
          (mkRequest "https://api.binance.com" "/api/v3/time" "GET"
                     None None None true 0) []
  = Some (Raise (TypeError "'NoneType' object does not support item assignment"),
          mkRequest "https://api.binance.com" "/api/v3/time" "GET"
                    None None None true 0, []).
Proof.
  apply microsecond_flag_needs_headers; reflexivity.
Defined.

(** C1.  When every HTTP call fails at the connection level: with the
    counter below 5 the client issues the call, sleeps one second, raises the
    counter and runs the whole of [request] again; with the counter at 5 or
    more it raises the exhaustion error around the cause; so a descriptor
    whose counter starts at its default 0 makes 6 calls, sleeps 5 times one
    second and raises the exhaustion error around the cause of the 6th. *)
Theorem connection_failures_exhaust_retries
    (urlencode : dict -> string) (json_loads : string -> option PyVal)
    (transport : nat -> Outcome) (req : Request) (tr : list Event) :
  reaches_transport req = true ->
  (forall n, connection_failure (transport n)) ->
  (retry req < 5 ->
   request urlencode json_loads transport req tr
   = request urlencode json_loads transport
             (set_retry (injected req) (retry req + 1))
             ((tr ++ [http_event urlencode req]) ++ [EvSleep 1])%list)
  /\ (5 <= retry req ->
      exists cause,
        transport (http_calls tr) = ConnectionError cause
        /\ request urlencode json_loads transport req tr
           = Some (Raise (RetriesExhausted (retry req) cause), injected req,
                   (tr ++ [http_event urlencode req])%list))
  /\ (retry req = 0 ->
      exists cause req' tr',
        transport (http_calls tr + 5)%nat = ConnectionError cause
        /\ request urlencode json_loads transport req tr
           = Some (Raise (RetriesExhausted 5 cause), req', tr')
        /\ retry req' = 5
        /\ http_calls tr' = (http_calls tr + 6)%nat
        /\ sleeps tr' = (sleeps tr ++ five_seconds)%list).
Proof.
  intros Hreach Hfail. split; [|split].
  - intro Hlt. rewrite request_unfold.
    destruct (Hfail (http_calls tr)) as [cause Ht].
    rewrite (attempt_connection_failure _ _ _ _ _ Hreach cause Ht).
    destruct (Z.ltb_spec (retry req) 5); [reflexivity | lia].
  - intro Hge. destruct (Hfail (http_calls tr)) as [cause Ht].
    exists cause. split; [exact Ht|]. rewrite request_unfold.
    rewrite (attempt_connection_failure _ _ _ _ _ Hreach cause Ht).
    destruct (Z.ltb_spec (retry req) 5); [lia | reflexivity].
  - intro Hzero.
    destruct (exhausting_run urlencode json_loads transport
                (fun n => or_introl (Hfail n)) 5 req tr Hreach)
      as (req' & tr' & Hrun & Hr & Hh & Hs); [rewrite Hzero; reflexivity|].
    destruct (Hfail (http_calls tr + 5)%nat) as [cause Ht].
    exists cause, req', tr'. rewrite Hrun, Ht, Hh, Hs.
    split; [reflexivity|]. split; [reflexivity|]. split; [exact Hr|].
    split; [lia | reflexivity].
Qed.

Lemma connection_failures_exhaust_retries_witness :
  exists req' tr',
    request urlencode_unescaped Json.loads
            (fun _ => ConnectionError "connection refused")
            (Request_default "https://api.binance.com" "/api/v3/ping") []
    = Some (Raise (RetriesExhausted 5 "connection refused"), req', tr')
    /\ retry req' = 5 /\ http_calls tr' = 6%nat /\ sleeps tr' = five_seconds.
Proof.
  destruct (connection_failures_exhaust_retries
              urlencode_unescaped Json.loads
              (fun _ => ConnectionError "connection refused")
              (Request_default "https://api.binance.com" "/api/v3/ping") []
              eq_refl (fun _ => ex_intro _ "connection refused" eq_refl))
    as (_ & _ & Hrun).
  destruct (Hrun eq_refl) as (cause & req' & tr' & Hc & Hr & Hretry & Hh & Hs).
  injection Hc as <-. exists req', tr'. repeat split; assumption.
Defined.

(** C2.  A response whose status is not 200 and whose body decodes to a JSON
    object: with code -1021 and the counter below 5 the client sleeps one
    second, raises the counter and runs [request] again; with any other code,
    or with the counter at 5 or more, it raises the API error that carries
    the code and the message.  Hence, from a counter at its default 0, a
    -1021 answer to every call is retried 5 times and then raised; so it is
    for the HTTP 409 example of the specification. *)
Theorem recv_window_rejection_is_retried :
  (forall urlencode json_loads transport req tr sc reason body error_data,
      reaches_transport req = true ->
      transport (http_calls tr) = Reply sc reason body ->
      sc <> 200 ->
      json_loads body = Some (VDict error_data) ->
      (error_code error_data = VInt (-1021) -> retry req < 5 ->
       request urlencode json_loads transport req tr
       = request urlencode json_loads transport
                 (set_retry (injected req) (retry req + 1))
                 ((tr ++ [http_event urlencode req]) ++ [EvSleep 1])%list)
      /\ (error_code error_data <> VInt (-1021) \/ 5 <= retry req ->
          request urlencode json_loads transport req tr
          = Some (Raise (ApiError (error_code error_data) (error_msg error_data)),
                  injected req, (tr ++ [http_event urlencode req])%list)))
  /\ (forall urlencode json_loads transport req tr,
         reaches_transport req = true ->
         retry req = 0 ->
         (forall n, recv_window_reply json_loads (transport n)) ->
         exists msg req' tr',
           request urlencode json_loads transport req tr
           = Some (Raise (ApiError (VInt (-1021)) msg), req', tr')
           /\ retry req' = 5
           /\ http_calls tr' = (http_calls tr + 6)%nat
           /\ sleeps tr' = (sleeps tr ++ five_seconds)%list)
  /\ (forall urlencode base path,
         exists req' tr',
           request urlencode Json.loads
                   (fun _ => Reply 409 "Conflict" recv_window_body)
                   (Request_default base path) []
           = Some (Raise (ApiError (VInt (-1021))
                                   (VStr "Timestamp outside recvWindow")),
                   req', tr')
           /\ retry req' = 5
           /\ http_calls tr' = 6%nat
           /\ sleeps tr' = five_seconds).
Proof.
  split; [|split].
  - intros urlencode json_loads transport req tr sc reason body d
           Hreach Ht Hsc Hj.
    pose proof (attempt_error_object urlencode json_loads transport req tr
                  Hreach sc reason body d Ht Hsc Hj) as Ha.
    cbv zeta in Ha. fold (error_code d) (error_msg d) in Ha.
    split.
    + intros Hcode Hlt. rewrite request_unfold, Ha.
      rewrite (proj2 (recv_window_code _) Hcode).
      destruct (Z.ltb_spec (retry req) 5); [reflexivity | lia].
    + intros Hother. rewrite request_unfold, Ha.
      destruct (is_recv_window_error (error_code d)) eqn:Hc;
        [|reflexivity].
      apply recv_window_code in Hc.
      destruct Hother as [Hne|Hge]; [contradiction|].
      destruct (Z.ltb_spec (retry req) 5); [lia | reflexivity].
  - intros urlencode json_loads transport req tr Hreach Hzero Hfail.
    destruct (exhausting_run urlencode json_loads transport
                (fun n => or_intror (Hfail n)) 5 req tr Hreach)
      as (req' & tr' & Hrun & Hr & Hh & Hs); [rewrite Hzero; reflexivity|].
    destruct (Hfail (http_calls tr + 5)%nat)
      as (sc & reason & body & d & Ht & _ & Hj & Hcode).
    exists (error_msg d), req', tr'. rewrite Hrun, Ht, Hh, Hs.
    cbn [terminal_error]. rewrite Hj.
    unfold dict_get_default at 1. rewrite Hcode.
    split; [reflexivity|]. split; [exact Hr|]. split; [lia | reflexivity].
  - intros urlencode base path. do 2 eexists.
    split; [vm_compute; reflexivity|]. repeat split.
Qed.

Lemma recv_window_rejection_is_retried_witness :
  exists req' tr',
    request urlencode_unescaped Json.loads
            (fun _ => Reply 409 "Conflict" recv_window_body)
            (Request_default "https://api.binance.com" "/api/v3/time") []
    = Some (Raise (ApiError (VInt (-1021)) (VStr "Timestamp outside recvWindow")),
            req', tr')
    /\ retry req' = 5 /\ http_calls tr' = 6%nat /\ sleeps tr' = five_seconds.
Proof.
  destruct recv_window_rejection_is_retried as (_ & Hrun & _).
  destruct (Hrun urlencode_unescaped Json.loads
                 (fun _ => Reply 409 "Conflict" recv_window_body)
                 (Request_default "https://api.binance.com" "/api/v3/time") []
                 eq_refl eq_refl)
    as (msg & req' & tr' & Hr & Hrest).
  - intros _. exists 409, "Conflict", recv_window_body,
      [("code", VInt (-1021)); ("msg", VStr "Timestamp outside recvWindow")].
    split; [reflexivity|]. split; [lia|]. split; vm_compute; reflexivity.
  - exists req', tr'. split; [|exact Hrest].
    rewrite Hr. f_equal. f_equal. f_equal.
    destruct recv_window_rejection_is_retried as (_ & _ & Hex).
    destruct (Hex urlencode_unescaped "https://api.binance.com" "/api/v3/time")
      as (req2 & tr2 & Hr2 & _).
    rewrite Hr in Hr2. congruence.
Defined.

(** C3.  On a response with status 200 the call ends at once: an empty body
    gives the envelope with a null payload, a body that decodes gives the
    envelope with the decoded payload, both with code 0 and an empty
    message, and a body that does not decode raises the malformed-body
    error.  The server-time example of the specification yields a payload
    whose [serverTime] is 1700000000000. *)
Theorem success_response_is_decoded :
  (forall urlencode json_loads transport req tr reason body,
      reaches_transport req = true ->
      transport (http_calls tr) = Reply 200 reason body ->
      (body = EmptyString ->
       request urlencode json_loads transport req tr
       = Some (Ok (mkResponse 200 reason (VInt 0) (VStr EmptyString) VNone),
               injected req, (tr ++ [http_event urlencode req])%list))
      /\ (forall v, body <> EmptyString -> json_loads body = Some v ->
          request urlencode json_loads transport req tr
          = Some (Ok (mkResponse 200 reason (VInt 0) (VStr EmptyString) v),
                  injected req, (tr ++ [http_event urlencode req])%list))
      /\ (body <> EmptyString -> json_loads body = None ->
          request urlencode json_loads transport req tr
          = Some (Raise (MalformedError true body),
                  injected req, (tr ++ [http_event urlencode req])%list)))
  /\ (forall urlencode base path,
         exists resp,
           request urlencode Json.loads
                   (fun _ => Reply 200 "OK" server_time_body)
                   (Request_default base path) []
           = Some (Ok resp, Request_default base path,
                   [EvHttp "GET" (base ++ path) None])
           /\ py_get (data resp) "serverTime" = Ok (VInt 1700000000000)
           /\ code resp = VInt 0
           /\ msg resp = VStr EmptyString
           /\ status_code resp = 200).
Proof.
  split.
  - intros urlencode json_loads transport req tr reason body Hreach Ht.
    pose proof (attempt_success urlencode json_loads transport req tr
                  Hreach reason body Ht) as Ha.
    split; [|split].
    + intros ->. rewrite request_unfold, Ha. reflexivity.
    + intros v Hne Hj. rewrite request_unfold, Ha.
      destruct body; [contradiction|]. rewrite Hj. reflexivity.
    + intros Hne Hj. rewrite request_unfold, Ha.
      destruct body; [contradiction|]. rewrite Hj. reflexivity.
  - intros urlencode base path. eexists.
    split; [vm_compute; reflexivity|]. repeat split.
Qed.

Lemma success_response_is_decoded_witness :
  request urlencode_unescaped Json.loads
          (fun _ => Reply 200 "OK" server_time_body)
          (Request_default "https://api.binance.com" "/api/v3/time") []
  = Some (Ok (mkResponse 200 "OK" (VInt 0) (VStr EmptyString)
                         (VDict [("serverTime", VInt 1700000000000)])),
          Request_default "https://api.binance.com" "/api/v3/time",
          [EvHttp "GET" "https://api.binance.com/api/v3/time" None]).
Proof.
  destruct success_response_is_decoded as (Hgen & _).
  destruct (Hgen urlencode_unescaped Json.loads
                 (fun _ => Reply 200 "OK" server_time_body)
                 (Request_default "https://api.binance.com" "/api/v3/time") []
                 "OK" server_time_body eq_refl eq_refl)
    as (_ & Hdecoded & _).
  apply (Hdecoded (VDict [("serverTime", VInt 1700000000000)])).
  - discriminate.
  - vm_compute. reflexivity.
Defined.

(** C9.  One counter pays for both kinds of retry.  Whatever the transport
    answers, a call on a descriptor whose counter is not negative ends, and
    its [k] retries, of either kind, are at most 5: the counter went up by
    [k], the client slept [k] times one second and issued at most [k + 1],
    hence at most 6, HTTP calls.  When connection failures and -1021
    answers alternate, the call gives up after 5 retries and 6 calls. *)
Theorem retries_share_one_budget :
  (forall urlencode json_loads transport req tr,
      0 <= retry req ->
      exists res req' tr' (k : nat),
        request urlencode json_loads transport req tr = Some (res, req', tr')
        /\ retry req' = retry req + Z.of_nat k
        /\ (k <= 5)%nat
        /\ sleeps tr' = (sleeps tr ++ repeat 1 k)%list
        /\ (http_calls tr' <= http_calls tr + k + 1)%nat
        /\ (http_calls tr' <= http_calls tr + 6)%nat)
  /\ (forall urlencode base path,
         exists req' tr',
           request urlencode Json.loads alternating (Request_default base path) []
           = Some (Raise (ApiError (VInt (-1021))
                                   (VStr "Timestamp outside recvWindow")),
                   req', tr')
           /\ retry req' = 5
           /\ http_calls tr' = 6%nat
           /\ sleeps tr' = five_seconds).
Proof.
  split.
  - intros urlencode json_loads transport req tr Hpos.
    destruct (request_total urlencode json_loads transport req tr)
      as [[[res req'] tr'] Hrun].
    pose proof Hrun as Hacc. unfold request in Hacc.
    apply loop_accounting in Hacc as (k & Hr & Hk & Hs & Hh).
    exists res, req', tr', k.
    assert (Hk5 : (k <= 5)%nat) by (destruct Hk as [->|Hk]; lia).
    repeat split; try assumption; lia.
  - intros urlencode base path. do 2 eexists.
    split; [vm_compute; reflexivity|]. repeat split.
Qed.

Lemma retries_share_one_budget_witness :
  exists res req' tr',
    request urlencode_unescaped Json.loads alternating
            (Request_default "https://api.binance.com" "/api/v3/time") []
    = Some (res, req', tr')
    /\ (http_calls tr' <= 6)%nat /\ (List.length (sleeps tr') <= 5)%nat.
Proof.
  destruct retries_share_one_budget as (Hgen & _).
  destruct (Hgen urlencode_unescaped Json.loads alternating
                 (Request_default "https://api.binance.com" "/api/v3/time") [])
    as (res & req' & tr' & k & Hrun & _ & Hk & Hs & _ & Hh).
  - cbn. lia.
  - exists res, req', tr'. split; [exact Hrun|]. split; [exact Hh|].
    rewrite Hs. cbn [sleeps flat_map app]. rewrite repeat_length. exact Hk.
Defined.

(** A descriptor that a failed call leaves behind has spent its budget: the
    next call on it does not retry at all. *)
Lemma spent_descriptor_is_not_retried
    (urlencode : dict -> string) (json_loads : string -> option PyVal)
    (transport : nat -> Outcome) (req : Request) (tr : list Event) (cause : string) :
  reaches_transport req = true ->
  retry req = 5 ->
  transport (http_calls tr) = ConnectionError cause ->
  request urlencode json_loads transport req tr
  = Some (Raise (RetriesExhausted 5 cause), injected req,
          (tr ++ [http_event urlencode req])%list).
Proof.
  intros Hreach Hr Ht. rewrite request_unfold.
  rewrite (attempt_connection_failure _ _ _ _ _ Hreach cause Ht), Hr.
  reflexivity.
Qed.

(** * Further properties of the code *)

(** ** Filter precision analyzer *)

Lemma split_at_first_separator (sep : ascii) (ip rest : string) :
  Str.mem sep ip = false ->
  Str.split sep (ip ++ String sep rest) = ip :: Str.split sep rest.
Proof.
  induction ip as [|c r IH]; cbn [append Str.split Str.mem]; intro H.
  - rewrite Ascii.eqb_refl. reflexivity.
  - apply orb_false_iff in H as [Hc Hr]. rewrite Hc, (IH Hr). reflexivity.
Qed.

(** When the integer part holds a [1], nothing after the decimal point
    matters: the text with a fraction has the precision of the text
    without. *)
Theorem fraction_is_ignored_after_integer_one (ip rest : string) :
  Str.mem "." ip = false ->
  Str.mem "1" ip = true ->
  get_prec_just_for_binance_filter (ip ++ "." ++ rest)
  = get_prec_just_for_binance_filter ip
  /\ get_prec_just_for_binance_filter ip
     = Ok (Str.find "1" ip - Str.len ip + 1).
Proof.
  intros Hdot Hone.
  pose proof (find_present "1" ip Hone) as Hb.
  assert (Hfind : negb (Str.find "1" ip =? -1) = true).
  { destruct (Z.eqb_spec (Str.find "1" ip) (-1)); [lia | reflexivity]. }
  assert (Hip : get_prec_just_for_binance_filter ip
                = Ok (Str.find "1" ip - Str.len ip + 1)).
  { unfold get_prec_just_for_binance_filter.
    rewrite (split_without_separator "." ip Hdot). cbn [nth].
    rewrite Hfind. reflexivity. }
  split; [|exact Hip]. rewrite Hip.
  unfold get_prec_just_for_binance_filter.
  change (ip ++ "." ++ rest) with (ip ++ String "." rest).
  rewrite (split_at_first_separator "." ip rest Hdot). cbn [nth].
  rewrite Hfind. reflexivity.
Qed.

Lemma fraction_is_ignored_after_integer_one_witness :
  get_prec_just_for_binance_filter "10.5" = get_prec_just_for_binance_filter "10"
  /\ get_prec_just_for_binance_filter "10" = Ok (-1).
Proof.
  apply (fraction_is_ignored_after_integer_one "10" "5"); reflexivity.
Defined.

(** The analyzer raises nothing but the format error around its argument. *)
Lemma analyzer_raises_format_error (size : string) (e : PyExn) :
  get_prec_just_for_binance_filter size = Raise e -> e = FormatError size.
Proof.
  unfold get_prec_just_for_binance_filter.
  destruct (negb (_ =? -1)); [discriminate|].
  destruct (_ =? 1)%nat; [intro H; injection H; auto|].
  destruct (negb (_ =? -1)); [discriminate | intro H; injection H; auto].
Qed.

(** The analyzer accepts a string exactly when a [1] occurs before the
    first decimal point or between the first and the second; a [1] further
    right does not count. *)
Theorem analyzer_accepts_iff (size : string) :
  (exists p, get_prec_just_for_binance_filter size = Ok p)
  <-> (Str.mem "1" (nth 0 (Str.split "." size) EmptyString) = true
       \/ Str.mem "1" (nth 1 (Str.split "." size) EmptyString) = true).
Proof.
  split.
  - intros [p H]. apply analyzer_result_shape in H.
    destruct H as [[Hip _]|[_ [_ Hdp]]]; [left; exact Hip | right; exact Hdp].
  - intro H. unfold get_prec_just_for_binance_filter.
    destruct (Str.mem "1" (nth 0 (Str.split "." size) EmptyString)) eqn:Hip.
    + pose proof (find_present "1" _ Hip) as Hb.
      destruct (Z.eqb_spec (Str.find "1" (nth 0 (Str.split "." size) EmptyString)) (-1));
        [lia|]. cbn [negb]. eauto.
    + destruct H as [H|Hdp]; [discriminate|].
      rewrite (proj2 (find_absent "1" _) Hip). cbn [Z.eqb Pos.eqb negb].
      destruct (Str.split "." size) as [|a [|b r]] eqn:Hs;
        cbn [nth] in Hdp; try discriminate Hdp.
      cbn [List.length Nat.eqb nth].
      pose proof (find_present "1" _ Hdp) as Hb.
      destruct (Z.eqb_spec (Str.find "1" b) (-1)); [lia|]. cbn [negb]. eauto.
Qed.

Lemma analyzer_accepts_iff_witness :
  (exists p, get_prec_just_for_binance_filter "0.01" = Ok p)
  /\ ~ (exists p, get_prec_just_for_binance_filter "0.0.1" = Ok p).
Proof.
  split.
  - apply (proj2 (analyzer_accepts_iff "0.01")). right. reflexivity.
  - intro H. apply (proj1 (analyzer_accepts_iff "0.0.1")) in H.
    destruct H as [H|H]; discriminate H.
Defined.

(** A precision the analyzer returns lies between one minus the length of
    the integer part and the length of the fraction. *)
Theorem analyzer_result_range (size : string) (p : Z) :
  get_prec_just_for_binance_filter size = Ok p ->
  1 - Str.len (integer_part size) <= p
  /\ p <= Str.len (nth 1 (Str.split "." size) EmptyString).
Proof.
  intro H. apply analyzer_result_shape in H.
  assert (Hlen : forall s, 0 <= Str.len s) by (intro s; unfold Str.len; lia).
  destruct H as [[Hip ->]|[_ [-> Hdp]]].
  - pose proof (find_present "1" _ Hip). pose proof (Hlen (integer_part size)).
    pose proof (Hlen (nth 1 (Str.split "." size) EmptyString)). lia.
  - pose proof (find_present "1" _ Hdp). pose proof (Hlen (integer_part size)). lia.
Qed.

Lemma analyzer_result_range_witness :
  1 - Str.len (integer_part "0.00100000") <= 3
  /\ 3 <= Str.len (nth 1 (Str.split "." "0.00100000") EmptyString).
Proof.
  apply (analyzer_result_range "0.00100000" 3). reflexivity.
Defined.

(** ** Filter-list analysis *)

Lemma for_each_app {A B : Type} (body : A -> B -> Res A) (l1 l2 : list B) (a : A) :
  for_each body (l1 ++ l2)%list a = bind (for_each body l1 a) (for_each body l2).
Proof.
  revert a. induction l1 as [|x r IH]; intro a; cbn [for_each app bind]; [reflexivity|].
  destruct (body a x); cbn [bind]; [apply IH | reflexivity].
Qed.

Lemma analysis_of_list (l : list PyVal) :
  analyze_exchange_symbol_filters (VList l)
  = bind (for_each filter_step l (0, 0))
         (fun acc => Ok (ExchangeSymbolFiltersInfo (fst acc) (snd acc) false)).
Proof. reflexivity. Qed.

Lemma analysis_succeeds (l : list PyVal) (p q : Z) (c : bool) :
  analyze_exchange_symbol_filters (VList l) = Ok (ExchangeSymbolFiltersInfo p q c) ->
  for_each filter_step l (0, 0) = Ok (p, q).
Proof.
  rewrite analysis_of_list.
  destruct (for_each filter_step l (0, 0)) as [[p' q']|e]; cbn [bind fst snd];
    [|discriminate].
  unfold ExchangeSymbolFiltersInfo. intro H. injection H as -> -> _. reflexivity.
Qed.

Lemma step_over_unrecognised (acc : Z * Z) (f : PyVal) :
  unrecognised f -> filter_step acc f = Ok acc.
Proof.
  intros (d & t & -> & Ht & Hp & Hl). destruct acc as [p q].
  unfold filter_step, py_get, dict_get_default. rewrite Ht. cbn [bind].
  destruct (String.eqb_spec t "PRICE_FILTER"); [contradiction|].
  destruct (String.eqb_spec t "LOT_SIZE"); [contradiction | reflexivity].
Qed.

Lemma step_over_price_filter (p q : Z) (f v : PyVal) :
  price_filter f v ->
  filter_step (p, q) f
  = match v with
    | VStr t => bind (get_prec_just_for_binance_filter t) (fun n => Ok (n, q))
    | _ => Raise (TypeMismatch "tickSize" v)
    end.
Proof.
  intros (d & -> & Ht & Hv).
  unfold filter_step, py_get. unfold dict_get_default at 1. rewrite Ht.
  cbn [bind String.eqb Ascii.eqb Bool.eqb]. rewrite Hv.
  destruct v; reflexivity.
Qed.

Lemma step_over_lot_size (p q : Z) (f v : PyVal) :
  lot_size f v ->
  filter_step (p, q) f
  = match v with
    | VStr t => bind (get_prec_just_for_binance_filter t) (fun n => Ok (p, n))
    | _ => Raise (TypeMismatch "stepSize" v)
    end.
Proof.
  intros (d & -> & Ht & Hv).
  unfold filter_step, py_get. unfold dict_get_default at 1. rewrite Ht.
  cbn [bind String.eqb Ascii.eqb Bool.eqb]. rewrite Hv.
  destruct v; reflexivity.
Qed.

(** A filter of a type the analysis does not know is skipped, wherever it
    stands in the list: with it and without it the analysis does the same. *)
Theorem unrecognised_filter_is_skipped (l1 l2 : list PyVal) (f : PyVal) :
  unrecognised f ->
  analyze_exchange_symbol_filters (VList (l1 ++ f :: l2))
  = analyze_exchange_symbol_filters (VList (l1 ++ l2)).
Proof.
  intro Hf. rewrite !analysis_of_list, !for_each_app.
  destruct (for_each filter_step l1 (0, 0)) as [acc|e]; cbn [bind for_each];
    [|reflexivity].
  rewrite (step_over_unrecognised acc f Hf). reflexivity.
Qed.

Lemma unrecognised_filter_is_skipped_witness :
  analyze_exchange_symbol_filters
    (VList [VDict [("filterType", VStr "PRICE_FILTER"); ("tickSize", VStr "0.01")];
            VDict [("filterType", VStr "MIN_NOTIONAL"); ("minNotional", VStr "10")];
            VDict [("filterType", VStr "LOT_SIZE"); ("stepSize", VStr "0.001")]])
  = Ok (ExchangeSymbolFiltersInfo 2 3 false).
Proof.
  refine (eq_trans
            (unrecognised_filter_is_skipped
               [VDict [("filterType", VStr "PRICE_FILTER"); ("tickSize", VStr "0.01")]]
               [VDict [("filterType", VStr "LOT_SIZE"); ("stepSize", VStr "0.001")]]
               (VDict [("filterType", VStr "MIN_NOTIONAL"); ("minNotional", VStr "10")])
               _) _).
  - exists [("filterType", VStr "MIN_NOTIONAL"); ("minNotional", VStr "10")],
           "MIN_NOTIONAL".
    repeat split; discriminate.
  - reflexivity.
Defined.

(** Whatever the filters, the info the analysis returns says that market
    orders are not possible: [canMarket] is never set. *)
Theorem analysis_never_sets_can_market (filters info : PyVal) :
  analyze_exchange_symbol_filters filters = Ok info ->
  py_get info "canMarket" = Ok (VBool false)
  /\ exists p q, py_get info "pPrec" = Ok (VInt p) /\ py_get info "qPrec" = Ok (VInt q).
Proof.
  unfold analyze_exchange_symbol_filters.
  destruct (py_iter filters) as [items|e]; cbn [bind]; [|discriminate].
  destruct (for_each filter_step items (0, 0)) as [[p q]|e]; cbn [bind]; [|discriminate].
  intro H. injection H as <-. split; [reflexivity|].
  exists p, q. split; reflexivity.
Qed.

Lemma analysis_never_sets_can_market_witness :
  py_get (ExchangeSymbolFiltersInfo 3 0 false) "canMarket" = Ok (VBool false).
Proof.
  apply (analysis_never_sets_can_market example_filters). reflexivity.
Defined.

(** The last filter of a kind decides: a price filter added at the end sets
    the price precision and keeps the quantity precision, and a lot size
    added at the end does the converse. *)
Theorem last_filter_wins (l : list PyVal) (f : PyVal) (t : string)
    (p q n : Z) (c : bool) :
  analyze_exchange_symbol_filters (VList l) = Ok (ExchangeSymbolFiltersInfo p q c) ->
  get_prec_just_for_binance_filter t = Ok n ->
  (price_filter f (VStr t) ->
   analyze_exchange_symbol_filters (VList (l ++ [f]))
   = Ok (ExchangeSymbolFiltersInfo n q false))
  /\ (lot_size f (VStr t) ->
      analyze_exchange_symbol_filters (VList (l ++ [f]))
      = Ok (ExchangeSymbolFiltersInfo p n false)).
Proof.
  intros Hl Ht. apply analysis_succeeds in Hl.
  split; intro Hf; rewrite analysis_of_list, for_each_app, Hl; cbn [bind for_each].
  - rewrite (step_over_price_filter p q f _ Hf), Ht. reflexivity.
  - rewrite (step_over_lot_size p q f _ Hf), Ht. reflexivity.
Qed.

Lemma last_filter_wins_witness :
  analyze_exchange_symbol_filters
    (VList [VDict [("filterType", VStr "PRICE_FILTER"); ("tickSize", VStr "0.01")];
            VDict [("filterType", VStr "PRICE_FILTER"); ("tickSize", VStr "10")]])
  = Ok (ExchangeSymbolFiltersInfo (-1) 0 false).
Proof.
  apply (last_filter_wins
           [VDict [("filterType", VStr "PRICE_FILTER"); ("tickSize", VStr "0.01")]]
           (VDict [("filterType", VStr "PRICE_FILTER"); ("tickSize", VStr "10")])
           "10" 2 0 (-1) false); [reflexivity | reflexivity |].
  exists [("filterType", VStr "PRICE_FILTER"); ("tickSize", VStr "10")].
  repeat split.
Defined.

(** A filter record whose [filterType] is missing or is not a string stops
    the analysis with the type error that carries what was found, whatever
    follows it. *)
Theorem bad_filter_type_aborts (l1 l2 : list PyVal) (d : dict) (info : PyVal) :
  analyze_exchange_symbol_filters (VList l1) = Ok info ->
  not_a_string (dict_get_default d "filterType" VNone) ->
  analyze_exchange_symbol_filters (VList (l1 ++ VDict d :: l2))
  = Raise (TypeMismatch "filterType" (dict_get_default d "filterType" VNone)).
Proof.
  intros Hl Hbad. rewrite analysis_of_list in Hl.
  rewrite analysis_of_list, for_each_app.
  destruct (for_each filter_step l1 (0, 0)) as [[p q]|e]; [|discriminate Hl].
  cbn [bind for_each]. unfold filter_step, py_get. cbn [bind].
  destruct (dict_get_default d "filterType" VNone) as [| | |s| | |]; try reflexivity.
  destruct (Hbad s eq_refl).
Qed.

Lemma bad_filter_type_aborts_witness :
  analyze_exchange_symbol_filters
    (VList [VDict [("tickSize", VStr "0.01")];
            VDict [("filterType", VStr "LOT_SIZE"); ("stepSize", VStr "0.001")]])
  = Raise (TypeMismatch "filterType" VNone).
Proof.
  apply (bad_filter_type_aborts [] _ [("tickSize", VStr "0.01")]
                                (ExchangeSymbolFiltersInfo 0 0 false));
    [reflexivity | intros s; discriminate].
Defined.

(** A price filter whose tick size holds no [1] stops the analysis with the
    format error around that tick size, whatever follows it; so does a lot
    size with such a step size. *)
Theorem size_without_one_aborts (l1 l2 : list PyVal) (f info : PyVal) (t : string) :
  analyze_exchange_symbol_filters (VList l1) = Ok info ->
  Str.mem "1" t = false ->
  price_filter f (VStr t) \/ lot_size f (VStr t) ->
  analyze_exchange_symbol_filters (VList (l1 ++ f :: l2)) = Raise (FormatError t).
Proof.
  intros Hl Hone Hf. rewrite analysis_of_list in Hl.
  assert (Hprec : get_prec_just_for_binance_filter t = Raise (FormatError t)).
  { destruct (get_prec_just_for_binance_filter t) as [p|e] eqn:Hp.
    - exfalso. apply analyzer_result_shape in Hp. unfold integer_part in Hp.
      pose proof (split_parts_lack "1" "." t Hone) as Hparts.
      destruct Hp as [[H _]|[_ [_ H]]];
        [rewrite (nth_lacks "1" _ 0 Hparts) in H | rewrite (nth_lacks "1" _ 1 Hparts) in H];
        discriminate H.
    - rewrite (analyzer_raises_format_error t e Hp). reflexivity. }
  rewrite analysis_of_list, for_each_app.
  destruct (for_each filter_step l1 (0, 0)) as [[p q]|e]; [|discriminate Hl].
  cbn [bind for_each].
  destruct Hf as [Hf|Hf].
  - rewrite (step_over_price_filter p q f _ Hf), Hprec. reflexivity.
  - rewrite (step_over_lot_size p q f _ Hf), Hprec. reflexivity.
Qed.

Lemma size_without_one_aborts_witness :
  analyze_exchange_symbol_filters
    (VList [VDict [("filterType", VStr "PRICE_FILTER"); ("tickSize", VStr "0.05")];
            VDict [("filterType", VStr "LOT_SIZE"); ("stepSize", VStr "0.001")]])
  = Raise (FormatError "0.05").
Proof.
  apply (size_without_one_aborts
           [] _ (VDict [("filterType", VStr "PRICE_FILTER"); ("tickSize", VStr "0.05")])
           (ExchangeSymbolFiltersInfo 0 0 false) "0.05");
    [reflexivity | reflexivity | left].
  exists [("filterType", VStr "PRICE_FILTER"); ("tickSize", VStr "0.05")].
  repeat split.
Defined.

(** A price filter without a [tickSize], or with one that is not a string,
    stops the analysis with the type error that names the field; so does a
    lot size and its [stepSize]. *)
Theorem size_of_wrong_type_aborts (l1 l2 : list PyVal) (f info v : PyVal) :
  analyze_exchange_symbol_filters (VList l1) = Ok info ->
  not_a_string v ->
  (price_filter f v ->
   analyze_exchange_symbol_filters (VList (l1 ++ f :: l2))
   = Raise (TypeMismatch "tickSize" v))
  /\ (lot_size f v ->
      analyze_exchange_symbol_filters (VList (l1 ++ f :: l2))
      = Raise (TypeMismatch "stepSize" v)).
Proof.
  intros Hl Hv. rewrite analysis_of_list in Hl.
  split; intro Hf; rewrite analysis_of_list, for_each_app;
    (destruct (for_each filter_step l1 (0, 0)) as [[p q]|e]; [|discriminate Hl]);
    cbn [bind for_each].
  - rewrite (step_over_price_filter p q f v Hf).
    destruct v as [| | |s| | |]; try reflexivity. destruct (Hv s eq_refl).
  - rewrite (step_over_lot_size p q f v Hf).
    destruct v as [| | |s| | |]; try reflexivity. destruct (Hv s eq_refl).
Qed.

Lemma size_of_wrong_type_aborts_witness :
  analyze_exchange_symbol_filters
    (VList [VDict [("filterType", VStr "LOT_SIZE"); ("stepSize", VInt 1)]])
  = Raise (TypeMismatch "stepSize" (VInt 1)).
Proof.
  apply (size_of_wrong_type_aborts
           [] [] (VDict [("filterType", VStr "LOT_SIZE"); ("stepSize", VInt 1)])
           (ExchangeSymbolFiltersInfo 0 0 false) (VInt 1));
    [reflexivity | intros s; discriminate |].
  exists [("filterType", VStr "LOT_SIZE"); ("stepSize", VInt 1)].
  repeat split.
Defined.

(** A list that holds no filter of the two known types, the empty list
    among them, yields precision zero for price and quantity alike: the
    result does not tell a missing filter from a step of one. *)
Theorem defaults_without_known_filters (l : list PyVal) :
  Forall unrecognised l ->
  analyze_exchange_symbol_filters (VList l) = Ok (ExchangeSymbolFiltersInfo 0 0 false)
  /\ analyze_exchange_symbol_filters
       (VList (l ++ [VDict [("filterType", VStr "LOT_SIZE"); ("stepSize", VStr "1")]]))
     = Ok (ExchangeSymbolFiltersInfo 0 0 false).
Proof.
  intro H.
  assert (Hloop : for_each filter_step l (0, 0) = Ok (0, 0)).
  { induction H as [|f r Hf _ IH]; [reflexivity|].
    cbn [for_each]. rewrite (step_over_unrecognised (0, 0) f Hf). exact IH. }
  split; rewrite analysis_of_list; [rewrite Hloop; reflexivity|].
  rewrite for_each_app, Hloop. reflexivity.
Qed.

Lemma defaults_without_known_filters_witness :
  analyze_exchange_symbol_filters
    (VList [VDict [("filterType", VStr "MIN_NOTIONAL"); ("minNotional", VStr "10")]])
  = Ok (ExchangeSymbolFiltersInfo 0 0 false).
Proof.
  apply (defaults_without_known_filters
           [VDict [("filterType", VStr "MIN_NOTIONAL"); ("minNotional", VStr "10")]]).
  constructor; [|constructor].
  exists [("filterType", VStr "MIN_NOTIONAL"); ("minNotional", VStr "10")],
         "MIN_NOTIONAL".
  repeat split; discriminate.
Defined.

(** ** Request normalizer *)

Lemma in_dict_get (d : dict) (k : string) (v : PyVal) :
  NoDup (keys d) -> In (k, v) d -> dict_get d k = Some v.
Proof.
  induction d as [|[k' v'] r IH]; intros Hnd Hin; [destruct Hin|].
  inversion Hnd as [|? ? Hk Hr]; subst. cbn [dict_get].
  destruct Hin as [E|Hin].
  - injection E as -> ->. rewrite String.eqb_refl. reflexivity.
  - destruct (String.eqb_spec k' k) as [->|Hne]; [|apply IH; assumption].
    exfalso. apply Hk. unfold keys. apply in_map_iff.
    exists (k, v). split; [reflexivity | exact Hin].
Qed.

Lemma dict_get_in (d : dict) (k : string) (v : PyVal) :
  dict_get d k = Some v -> In (k, v) d.
Proof.
  induction d as [|[k' v'] r IH]; cbn [dict_get]; [discriminate|].
  destruct (String.eqb_spec k' k) as [->|Hne].
  - intro H. injection H as ->. left. reflexivity.
  - intro H. right. apply IH. exact H.
Qed.

Lemma keys_of_rewritten (f : PyVal -> PyVal) (d : dict) :
  keys (map (fun kv => (fst kv, f (snd kv))) d) = keys d.
Proof. unfold keys. rewrite map_map. reflexivity. Qed.

(** What the normalizer binds to the key of a non-null entry. *)
Lemma tidy_lookup_of_entry (params : dict) (k : string) (v : PyVal) :
  NoDup (keys params) -> In (k, v) params -> v <> VNone ->
  dict_get (tidy_request_params params) k = Some (tidy_value v).
Proof.
  intros Hnd Hin Hv. rewrite tidy_request_params_is_map by exact Hnd.
  apply in_dict_get.
  - rewrite keys_of_rewritten. apply filter_keeps_nodup. exact Hnd.
  - apply in_map_iff. exists (k, v). split; [reflexivity|].
    unfold non_null. apply filter_In. split; [exact Hin|].
    destruct v; try reflexivity. contradiction.
Qed.

(** Lookup after normalizing: a key bound to null or not bound at all is
    not bound afterwards, and every other key is bound to the rewritten
    value. *)
Theorem normalizer_lookup (params : dict) (k : string) :
  NoDup (keys params) ->
  dict_get (tidy_request_params params) k
  = match dict_get params k with
    | Some VNone | None => None
    | Some v => Some (tidy_value v)
    end.
Proof.
  intro Hnd. destruct (dict_get params k) as [v|] eqn:Hget.
  - apply dict_get_in in Hget.
    destruct v; try (apply tidy_lookup_of_entry; [assumption | assumption | discriminate]).
    apply normalizer_drops_null; assumption.
  - rewrite tidy_request_params_is_map by exact Hnd.
    apply dict_get_absent. rewrite keys_of_rewritten.
    intro Hin. apply keys_of_filter in Hin.
    unfold keys in Hin. apply in_map_iff in Hin as [[k' v] [E Hin]].
    cbn [fst] in E. subst k'.
    rewrite (in_dict_get params k v Hnd Hin) in Hget. discriminate.
Qed.

Lemma normalizer_lookup_witness :
  dict_get (tidy_request_params example_params) "a" = Some (VStr "true")
  /\ dict_get (tidy_request_params example_params) "b" = None
  /\ dict_get (tidy_request_params example_params) "z" = None.
Proof.
  assert (Hnd : NoDup (keys example_params)).
  { repeat constructor; cbn; intuition discriminate. }
  split; [|split]; rewrite (normalizer_lookup example_params _ Hnd); reflexivity.
Defined.

(** The normalizer keeps the entries in the order of the input, adds no
    key and drops exactly the keys bound to null. *)
Theorem normalizer_keeps_order (params : dict) :
  NoDup (keys params) ->
  keys (tidy_request_params params) = keys (non_null params)
  /\ (List.length (tidy_request_params params) <= List.length params)%nat.
Proof.
  intro Hnd. rewrite tidy_request_params_is_map by exact Hnd.
  split; [apply keys_of_rewritten|].
  rewrite length_map. unfold non_null. apply filter_length_le.
Qed.

Lemma normalizer_keeps_order_witness :
  keys (tidy_request_params example_params) = ["a"; "c"].
Proof.
  refine (eq_trans (proj1 (normalizer_keeps_order example_params _)) _);
    [|reflexivity].
  repeat constructor; cbn; intuition discriminate.
Defined.

Lemma tidy_value_twice (v : PyVal) : tidy_value (tidy_value v) = tidy_value v.
Proof. destruct v as [| | | |[|x l]| |]; reflexivity. Qed.

Lemma tidy_value_not_null (v : PyVal) : v <> VNone -> is_none (tidy_value v) = false.
Proof. destruct v as [| | | |[|x l]| |]; try reflexivity. contradiction. Qed.

(** Normalizing twice is normalizing once. *)
Theorem normalizer_is_idempotent (params : dict) :
  NoDup (keys params) ->
  tidy_request_params (tidy_request_params params) = tidy_request_params params.
Proof.
  intro Hnd.
  assert (Hnd' : NoDup (keys (tidy_request_params params))).
  { rewrite tidy_request_params_is_map by exact Hnd.
    rewrite keys_of_rewritten. apply filter_keeps_nodup. exact Hnd. }
  rewrite (tidy_request_params_is_map (tidy_request_params params) Hnd').
  rewrite (tidy_request_params_is_map params Hnd).
  unfold non_null. induction params as [|[k v] r IH]; [reflexivity|].
  inversion Hnd as [|? ? Hk Hr]; subst. cbn [filter snd].
  destruct (is_none v) eqn:Hv; cbn [negb].
  - apply IH; [exact Hr|]. rewrite tidy_request_params_is_map by exact Hr.
    rewrite keys_of_rewritten. apply filter_keeps_nodup. exact Hr.
  - cbn [map filter fst snd].
    rewrite tidy_value_not_null by (intros ->; discriminate Hv).
    cbn [negb map fst snd]. rewrite tidy_value_twice. f_equal.
    apply IH; [exact Hr|]. rewrite tidy_request_params_is_map by exact Hr.
    rewrite keys_of_rewritten. apply filter_keeps_nodup. exact Hr.
Qed.

Lemma normalizer_is_idempotent_witness :
  tidy_request_params (tidy_request_params example_params)
  = tidy_request_params example_params.
Proof.
  apply normalizer_is_idempotent.
  repeat constructor; cbn; intuition discriminate.
Defined.

(** A non-empty list of strings becomes the bracketed literal of its items,
    each between double quotes, with a comma between two items and none at
    the end. *)
Theorem string_list_becomes_literal (params : dict) (k t : string) (r : list string) :
  NoDup (keys params) ->
  In (k, VList (map VStr (t :: r))) params ->
  dict_get (tidy_request_params params) k
  = Some (VStr ("[" ++ join "," (map quoted (t :: r)) ++ "]")).
Proof.
  intros Hnd Hin.
  rewrite (tidy_lookup_of_entry params k _ Hnd Hin) by discriminate.
  cbn [tidy_value map]. do 2 f_equal.
  change (VStr t :: map VStr r) with (map VStr (t :: r)).
  rewrite list_literal_of_strings. unfold spec_list_literal.
  rewrite map_map. reflexivity.
Qed.

Lemma string_list_becomes_literal_witness :
  dict_get (tidy_request_params [("symbols", VList [VStr "BTCUSDT"; VStr "ETHUSDT"])])
           "symbols"
  = Some (VStr ("[" ++ quoted "BTCUSDT" ++ "," ++ quoted "ETHUSDT" ++ "]")).
Proof.
  apply (string_list_becomes_literal
           [("symbols", VList [VStr "BTCUSDT"; VStr "ETHUSDT"])]
           "symbols" "BTCUSDT" ["ETHUSDT"]).
  - repeat constructor. intros [].
  - left. reflexivity.
Defined.

(** Numbers, strings, empty lists and nested mappings pass through the
    normalizer unchanged. *)
Theorem other_values_pass_through (params : dict) (k : string) (v : PyVal) :
  NoDup (keys params) ->
  In (k, v) params ->
  passes_through v ->
  dict_get (tidy_request_params params) k = Some v.
Proof.
  intros Hnd Hin Hv.
  rewrite (tidy_lookup_of_entry params k v Hnd Hin)
    by (intros ->; exact Hv).
  destruct v as [| | | |[|x l]| |]; try reflexivity; destruct Hv.
Qed.

Lemma other_values_pass_through_witness :
  dict_get (tidy_request_params [("limit", VInt 5); ("symbols", VList [])]) "symbols"
  = Some (VList []).
Proof.
  apply other_values_pass_through; [| right; left; reflexivity | exact I].
  repeat constructor; cbn; intuition discriminate.
Defined.

(** ** Transport client *)

Lemma dict_get_set_same (d : dict) (k : string) (v : PyVal) :
  dict_get (dict_set k v d) k = Some v.
Proof.
  induction d as [|[k' v'] r IH]; cbn [dict_set dict_get].
  - rewrite String.eqb_refl. reflexivity.
  - destruct (String.eqb k' k) eqn:E; cbn [dict_get]; rewrite E; [reflexivity | exact IH].
Qed.

Lemma dict_get_set_other (d : dict) (k k0 : string) (v : PyVal) :
  k0 <> k -> dict_get (dict_set k v d) k0 = dict_get d k0.
Proof.
  intro Hne. induction d as [|[k' v'] r IH]; cbn [dict_set dict_get].
  - destruct (String.eqb_spec k k0); [congruence | reflexivity].
  - destruct (String.eqb_spec k' k) as [->|E]; cbn [dict_get].
    + destruct (String.eqb_spec k k0); [congruence | reflexivity].
    + rewrite IH. reflexivity.
Qed.

Lemma dict_set_twice (d : dict) (k : string) (v : PyVal) :
  dict_set k v (dict_set k v d) = dict_set k v d.
Proof.
  induction d as [|[k' v'] r IH]; cbn [dict_set].
  - rewrite String.eqb_refl. reflexivity.
  - destruct (String.eqb k' k) eqn:E; cbn [dict_set]; rewrite E; [reflexivity|].
    rewrite IH. reflexivity.
Qed.

Lemma injected_twice (req : Request) : injected (injected req) = injected req.
Proof.
  destruct req as [b p m h ps a flag n]. unfold injected. cbn.
  destruct flag; cbn; [|reflexivity].
  destruct h as [h|]; cbn; [|reflexivity]. rewrite dict_set_twice. reflexivity.
Qed.

Lemma injected_set_retry (req : Request) (n : Z) :
  injected (set_retry req n) = set_retry (injected req) n.
Proof.
  destruct req as [b p m h ps a flag r]. unfold injected. cbn.
  destruct flag; reflexivity.
Qed.

Lemma set_retry_twice (req : Request) (a b : Z) :
  set_retry (set_retry req a) b = set_retry req b.
Proof. reflexivity. Qed.

Lemma set_retry_same (req : Request) : set_retry req (retry req) = req.
Proof. destruct req. reflexivity. Qed.

Lemma build_url_injected (urlencode : dict -> string) (req : Request) (n : Z) :
  build_url urlencode (set_retry (injected req) n) = build_url urlencode req.
Proof.
  destruct req as [b p m h ps a flag r]. unfold injected, build_url. cbn.
  destruct flag; reflexivity.
Qed.

(** A retry issues the call the first attempt issued. *)
Lemma http_event_of_retry (urlencode : dict -> string) (req : Request) (n : Z) :
  http_event urlencode (set_retry (injected req) n) = http_event urlencode req.
Proof.
  unfold http_event. rewrite build_url_injected, injected_set_retry, injected_twice.
  destruct req as [b p m h ps a flag r]. unfold injected. cbn.
  destruct flag; reflexivity.
Qed.

Section CallShape.

Variable urlencode : dict -> string.
Variable json_loads : string -> option PyVal.
Variable transport : nat -> Outcome.

Lemma attempt_done_shape (req req' : Request) (tr tr' : list Event)
    (res : Res Response) :
  reaches_transport req = true ->
  attempt urlencode json_loads transport req tr = Done (res, req', tr') ->
  req' = injected req /\ tr' = (tr ++ [http_event urlencode req])%list.
Proof.
  intro Hreach. unfold attempt, http_event.
  rewrite (inject_reaches req Hreach), injected_method.
  destruct (transport (http_calls tr)) as [e|sc reason body].
  - destruct (retry (injected req) <? 5); [discriminate|].
    intro H. injection H as <- <- <-. auto.
  - destruct (negb (sc =? 200)).
    + destruct (json_loads body) as [[| | | | |d|]|];
        try (intro H; injection H as <- <- <-; auto).
      destruct (is_recv_window_error _ && _); [discriminate|].
      intro H; injection H as <- <- <-; auto.
    + destruct body; [|destruct (json_loads _)];
        intro H; injection H as <- <- <-; auto.
Qed.

(** The trace and the descriptor of a finished call that got past the
    header injection. *)
Lemma loop_shape (fuel : nat) :
  forall req tr res req' tr',
    reaches_transport req = true ->
    request_loop urlencode json_loads transport fuel req tr = Some (res, req', tr') ->
    exists k : nat,
      (k = 0%nat \/ retry req + Z.of_nat k <= 5)
      /\ tr' = (tr ++ rounds (http_event urlencode req) k
                   ++ [http_event urlencode req])%list
      /\ req' = set_retry (injected req) (retry req + Z.of_nat k).
Proof.
  induction fuel as [|fuel IH]; intros req tr res req' tr' Hreach; [discriminate|].
  cbn [request_loop].
  destruct (attempt urlencode json_loads transport req tr) as [r|req1 tr1] eqn:Ha.
  - intro H. injection H as ->.
    apply (attempt_done_shape _ _ _ _ _ Hreach) in Ha as [-> ->].
    exists 0%nat. cbn [rounds app Z.of_nat]. rewrite Z.add_0_r.
    rewrite <- (injected_retry req), set_retry_same. auto.
  - apply attempt_again in Ha as (_ & Hlt & -> & ->). intro H.
    apply IH in H as (k & Hk & -> & ->); [|apply retried_reaches; exact Hreach].
    exists (S k). cbn [retry set_retry] in *.
    rewrite http_event_of_retry, injected_set_retry, injected_twice, set_retry_twice.
    split; [right; destruct Hk as [->|Hk]; lia|]. split.
    + cbn [rounds]. rewrite <- !List.app_assoc. reflexivity.
    + f_equal. lia.
Qed.

End CallShape.



(** A call changes nothing of the descriptor but the retry counter, which
    it never lowers, and the header mapping, which it touches only when the
    microsecond flag is set. *)
Theorem call_changes_only_retry_and_headers
    (urlencode : dict -> string) (json_loads : string -> option PyVal)
    (transport : nat -> Outcome) (req req' : Request) (tr tr' : list Event)
    (res : Res Response) :
  request urlencode json_loads transport req tr = Some (res, req', tr') ->
  base_url req' = base_url req /\ path req' = path req
  /\ method req' = method req /\ params req' = params req
  /\ api_key req' = api_key req
  /\ resp_in_microseconds req' = resp_in_microseconds req
  /\ retry req <= retry req'
  /\ (resp_in_microseconds req = false -> headers req' = headers req).
Proof.
  intro Hrun. destruct (reaches_transport req) eqn:Hreach.
  - unfold request in Hrun.
    apply loop_shape in Hrun as (k & _ & _ & ->); [|exact Hreach].
    destruct req as [b p m h ps a flag r]. unfold injected. cbn.
    destruct flag; cbn; repeat split; try lia; try discriminate; reflexivity.
  - rewrite request_unfold in Hrun. unfold attempt, inject_time_unit in Hrun.
    unfold reaches_transport in Hreach.
    destruct (resp_in_microseconds req) eqn:Hflag; [|discriminate Hreach].
    destruct (headers req) eqn:Hh; [discriminate Hreach|].
    injection Hrun as _ <- _. rewrite Hflag.
    repeat split; try lia; discriminate.
Qed.

Lemma call_changes_only_retry_and_headers_witness :
  exists res req' tr',
    request urlencode_unescaped Json.loads alternating
            (Request_default "https://api.binance.com" "/api/v3/time") []
    = Some (res, req', tr')
    /\ base_url req' = "https://api.binance.com" /\ headers req' = None.
Proof.
  do 3 eexists. split; [vm_compute; reflexivity|].
  destruct (call_changes_only_retry_and_headers
              urlencode_unescaped Json.loads alternating
              (Request_default "https://api.binance.com" "/api/v3/time") _ [] _ _
              eq_refl) as (Hb & _ & _ & _ & _ & _ & _ & Hh).
  split; [exact Hb | exact (Hh eq_refl)].
Defined.

(** After [k] retryable failures a good answer is returned like a first
    answer, but the descriptor keeps the [k] retries it spent: the counter
    is not reset on success. *)
Theorem success_after_retries_keeps_the_count
    (urlencode : dict -> string) (json_loads : string -> option PyVal)
    (transport : nat -> Outcome) (reason : string) (payload : PyVal) (k : nat) :
  forall (req : Request) (tr : list Event),
    reaches_transport req = true ->
    retry req + Z.of_nat k <= 5 ->
    (forall i, (i < k)%nat ->
               connection_failure (transport (http_calls tr + i)%nat)
               \/ recv_window_reply json_loads (transport (http_calls tr + i)%nat)) ->
    good_reply json_loads (transport (http_calls tr + k)%nat) reason payload ->
    request urlencode json_loads transport req tr
    = Some (Ok (mkResponse 200 reason (VInt 0) (VStr EmptyString) payload),
            set_retry (injected req) (retry req + Z.of_nat k),
            (tr ++ rounds (http_event urlencode req) k
                ++ [http_event urlencode req])%list).
Proof.
  induction k as [|k IH]; intros req tr Hreach Hbudget Hfail Hgood;
    rewrite request_unfold.
  - rewrite Nat.add_0_r in Hgood. destruct Hgood as (body & Ht & Hbody).
    rewrite (attempt_success _ _ _ _ _ Hreach reason body Ht).
    cbn [rounds app Z.of_nat]. rewrite Z.add_0_r.
    rewrite <- (injected_retry req), set_retry_same.
    destruct body; [rewrite Hbody | rewrite Hbody]; reflexivity.
  - rewrite (attempt_retryable _ _ _ _ _ Hreach).
    2:{ specialize (Hfail 0%nat). rewrite Nat.add_0_r in Hfail. apply Hfail. lia. }
    destruct (Z.ltb_spec (retry req) 5) as [Hlt|Hge]; [|lia].
    rewrite IH.
    + rewrite http_event_of_retry, injected_set_retry, injected_twice, set_retry_twice.
      cbn [retry set_retry rounds]. rewrite <- !List.app_assoc.
      do 3 f_equal. f_equal. lia.
    + apply retried_reaches. exact Hreach.
    + cbn [retry set_retry]. lia.
    + intros i Hi. rewrite http_calls_after_sleep, http_calls_after_call.
      replace (S (http_calls tr) + i)%nat with (http_calls tr + S i)%nat by lia.
      apply Hfail. lia.
    + rewrite http_calls_after_sleep, http_calls_after_call.
      replace (S (http_calls tr) + k)%nat with (http_calls tr + S k)%nat by lia.
      exact Hgood.
Qed.

Lemma success_after_retries_keeps_the_count_witness :
  exists tr',
    request urlencode_unescaped Json.loads
            (fun n => if (n <? 2)%nat then ConnectionError "connection refused"
                      else Reply 200 "OK" server_time_body)
            (Request_default "https://api.binance.com" "/api/v3/time") []
    = Some (Ok (mkResponse 200 "OK" (VInt 0) (VStr EmptyString)
                           (VDict [("serverTime", VInt 1700000000000)])),
            set_retry (Request_default "https://api.binance.com" "/api/v3/time") 2,
            tr').
Proof.
  eexists.
  apply (success_after_retries_keeps_the_count
           urlencode_unescaped Json.loads _ "OK"
           (VDict [("serverTime", VInt 1700000000000)]) 2
           (Request_default "https://api.binance.com" "/api/v3/time") []).
  - reflexivity.
  - cbn. lia.
  - intros i Hi. left. exists "connection refused".
    cbn [http_calls filter List.length Nat.add].
    destruct i as [|[|i]]; [reflexivity | reflexivity | lia].
  - exists server_time_body. split; [reflexivity | vm_compute; reflexivity].
Defined.

(** An answer whose status is not 200 and whose body is not JSON ends the
    call at once with the malformed-body error, whatever the counter: this
    failure is never retried. *)
Theorem undecodable_error_body_is_not_retried
    (urlencode : dict -> string) (json_loads : string -> option PyVal)
    (transport : nat -> Outcome) (req : Request) (tr : list Event)
    (sc : Z) (reason body : string) :
  reaches_transport req = true ->
  transport (http_calls tr) = Reply sc reason body ->
  sc <> 200 ->
  json_loads body = None ->
  request urlencode json_loads transport req tr
  = Some (Raise (MalformedError false body), injected req,
          (tr ++ [http_event urlencode req])%list).
Proof.
  intros Hreach Ht Hsc Hj. rewrite request_unfold. unfold attempt, http_event.
  rewrite (inject_reaches req Hreach), Ht, injected_method.
  destruct (Z.eqb_spec sc 200); [contradiction|]. cbn [negb]. rewrite Hj.
  reflexivity.
Qed.

Lemma undecodable_error_body_is_not_retried_witness :
  request urlencode_unescaped Json.loads
          (fun _ => Reply 502 "Bad Gateway" "<html>Bad Gateway</html>")
          (Request_default "https://api.binance.com" "/api/v3/time") []
  = Some (Raise (MalformedError false "<html>Bad Gateway</html>"),
          Request_default "https://api.binance.com" "/api/v3/time",
          [EvHttp "GET" "https://api.binance.com/api/v3/time" None]).
Proof.
  apply (undecodable_error_body_is_not_retried
           urlencode_unescaped Json.loads _
           (Request_default "https://api.binance.com" "/api/v3/time") []
           502 "Bad Gateway" "<html>Bad Gateway</html>");
    [reflexivity | reflexivity | lia | vm_compute; reflexivity].
Defined.

(** An answer whose status is not 200 and whose body is JSON but not an
    object, a list or a number for one, ends the call with the attribute
    error of [error_data.get]: no handler of [request] catches it. *)
Theorem error_body_that_is_no_object_raises_attribute_error
    (urlencode : dict -> string) (json_loads : string -> option PyVal)
    (transport : nat -> Outcome) (req : Request) (tr : list Event)
    (sc : Z) (reason body : string) (v : PyVal) :
  reaches_transport req = true ->
  transport (http_calls tr) = Reply sc reason body ->
  sc <> 200 ->
  json_loads body = Some v ->
  (forall d, v <> VDict d) ->
  request urlencode json_loads transport req tr
  = Some (Raise (AttributeError "get"), injected req,
          (tr ++ [http_event urlencode req])%list).
Proof.
  intros Hreach Ht Hsc Hj Hv. rewrite request_unfold. unfold attempt, http_event.
  rewrite (inject_reaches req Hreach), Ht, injected_method.
  destruct (Z.eqb_spec sc 200); [contradiction|]. cbn [negb]. rewrite Hj.
  destruct v as [| | | | |d|]; try reflexivity. destruct (Hv d eq_refl).
Qed.

Lemma error_body_that_is_no_object_raises_attribute_error_witness :
  request urlencode_unescaped Json.loads
          (fun _ => Reply 500 "Internal Server Error" "[1, 2]")
          (Request_default "https://api.binance.com" "/api/v3/time") []
  = Some (Raise (AttributeError "get"),
          Request_default "https://api.binance.com" "/api/v3/time",
          [EvHttp "GET" "https://api.binance.com/api/v3/time" None]).
Proof.
  apply (error_body_that_is_no_object_raises_attribute_error
           urlencode_unescaped Json.loads _
           (Request_default "https://api.binance.com" "/api/v3/time") []
           500 "Internal Server Error" "[1, 2]" (VList [VInt 1; VInt 2]));
    [reflexivity | reflexivity | lia | vm_compute; reflexivity | discriminate].
Defined.

(** With the microsecond flag set and a header mapping given, the injection
    binds [X-MBX-TIME-UNIT] to [MICROSECOND] in that mapping and leaves every
    other header as it was; injecting again, as a retry does, changes
    nothing more. *)
Theorem time_unit_header_is_injected (req : Request) (h : dict) :
  resp_in_microseconds req = true ->
  headers req = Some h ->
  exists req' h',
    inject_time_unit req = Ok req'
    /\ headers req' = Some h'
    /\ dict_get h' "X-MBX-TIME-UNIT" = Some (VStr "MICROSECOND")
    /\ (forall k, k <> "X-MBX-TIME-UNIT" -> dict_get h' k = dict_get h k)
    /\ inject_time_unit req' = Ok req'.
Proof.
  intros Hflag Hh.
  exists (set_headers req (Some (dict_set "X-MBX-TIME-UNIT" (VStr "MICROSECOND") h))),
         (dict_set "X-MBX-TIME-UNIT" (VStr "MICROSECOND") h).
  split; [unfold inject_time_unit; rewrite Hflag, Hh; reflexivity|].
  split; [reflexivity|]. split; [apply dict_get_set_same|].
  split; [intros k Hk; apply dict_get_set_other; exact Hk|].
  unfold inject_time_unit. cbn [resp_in_microseconds headers set_headers].
  rewrite Hflag, dict_set_twice. reflexivity.
Qed.

Lemma time_unit_header_is_injected_witness :
  exists req' h',
    inject_time_unit
      (mkRequest "https://api.binance.com" "/api/v3/time" "GET"
                 (Some [("Accept", VStr "application/json")]) None None true 0)
    = Ok req'
    /\ headers req' = Some h'
    /\ dict_get h' "X-MBX-TIME-UNIT" = Some (VStr "MICROSECOND")
    /\ dict_get h' "Accept" = Some (VStr "application/json").
Proof.
  destruct (time_unit_header_is_injected
              (mkRequest "https://api.binance.com" "/api/v3/time" "GET"
                         (Some [("Accept", VStr "application/json")]) None None true 0)
              [("Accept", VStr "application/json")] eq_refl eq_refl)
    as (req' & h' & Hinj & Hh & Hunit & Hother & _).
  exists req', h'. split; [exact Hinj|]. split; [exact Hh|]. split; [exact Hunit|].
  rewrite Hother; [reflexivity | discriminate].
Defined.

Lemma tidy_of_nulls (p : dict) :
  Forall (fun kv => snd kv = VNone) p -> tidy_request_params p = [].
Proof.
  intro H. unfold tidy_request_params.
  assert (E : filter (fun kv : string * PyVal => negb (is_none (snd kv))) p = []).
  { induction H as [|[k v] r Hv _ IH]; [reflexivity|].
    cbn [filter snd] in *. rewrite Hv. exact IH. }
  rewrite E. reflexivity.
Qed.

(** A mapping that is not empty adds the question mark to the URL even when
    all its values are null: the query is then the encoding of the empty
    mapping.  Without a mapping, or with the empty one, the URL is the base
    followed by the path. *)
Theorem url_of_null_params (urlencode : dict -> string) (req : Request) :
  (forall p, params req = Some p -> p <> [] ->
             Forall (fun kv => snd kv = VNone) p ->
             build_url urlencode req
             = (base_url req ++ path req) ++ "?" ++ urlencode [])
  /\ (params req = None \/ params req = Some [] ->
      build_url urlencode req = base_url req ++ path req).
Proof.
  unfold build_url. split.
  - intros p -> Hne Hnull. destruct p as [|kv r]; [contradiction|].
    rewrite (tidy_of_nulls _ Hnull). reflexivity.
  - intros [-> | ->]; reflexivity.
Qed.

Lemma url_of_null_params_witness :
  build_url urlencode_unescaped
            (mkRequest "https://api.binance.com" "/api/v3/exchangeInfo" "GET"
                       None (Some [("symbol", VNone)]) None false 0)
  = "https://api.binance.com/api/v3/exchangeInfo?".
Proof.
  refine (eq_trans
            (proj1 (url_of_null_params
                      urlencode_unescaped
                      (mkRequest "https://api.binance.com" "/api/v3/exchangeInfo" "GET"
                                 None (Some [("symbol", VNone)]) None false 0))
                   [("symbol", VNone)] eq_refl _ _) _).
  - discriminate.
  - repeat constructor.
  - reflexivity.
Defined.

(** ** Endpoint functions *)

(** A call on a descriptor whose counter is zero ends after at most five
    rounds of call and sleep and a last call. *)
Lemma fresh_call_shape
    (urlencode : dict -> string) (json_loads : string -> option PyVal)
    (transport : nat -> Outcome) (req : Request) (tr : list Event) :
  reaches_transport req = true ->
  retry req = 0 ->
  exists res req' (k : nat),
    (k <= 5)%nat
    /\ request urlencode json_loads transport req tr
       = Some (res, req',
               (tr ++ rounds (http_event urlencode req) k
                   ++ [http_event urlencode req])%list).
Proof.
  intros Hreach Hzero.
  destruct (request_total urlencode json_loads transport req tr)
    as [[[res req'] tr'] Hrun].
  pose proof Hrun as Hshape. unfold request in Hshape.
  apply loop_shape in Hshape as (k & Hk & -> & _); [|exact Hreach].
  exists res, req', k. split; [destruct Hk as [->|Hk]; lia | exact Hrun].
Qed.

Section EndpointFacts.

Variables API_ENDPOINT API_V3 : string.
Variable urlencode : dict -> string.
Variable json_loads : string -> option PyVal.
Variable transport : nat -> Outcome.

(** Whatever the transport answers, [get_spot_server_time] ends, and what
    it did is at most six times the same call, a [GET] of the endpoint
    followed by [/time], without query and without headers, with a sleep of
    one second between two calls. *)
Theorem server_time_makes_at_most_six_calls (tr : list Event) :
  exists res (k : nat),
    (k <= 5)%nat
    /\ get_spot_server_time API_ENDPOINT API_V3 urlencode json_loads transport tr
       = Some (res,
               (tr ++ rounds (EvHttp "GET" (API_ENDPOINT ++ API_V3 ++ "/time") None) k
                   ++ [EvHttp "GET" (API_ENDPOINT ++ API_V3 ++ "/time") None])%list).
Proof.
  destruct (fresh_call_shape urlencode json_loads transport
              (server_time_request API_ENDPOINT API_V3) tr eq_refl eq_refl)
    as (res & req' & k & Hk & Hrun).
  exists res, k. split; [exact Hk|].
  unfold get_spot_server_time. rewrite Hrun. reflexivity.
Qed.

(** [ping_spot_endpoint] returns nothing when the first answer is a 200
    with an empty or decodable body, after the one [GET] of [/ping]; it
    fails with the malformed-body error when the body of that 200 does not
    decode, although it has no use for the payload. *)
Theorem ping_needs_a_decodable_body (tr : list Event) (reason body : string) :
  transport (http_calls tr) = Reply 200 reason body ->
  ping_spot_endpoint API_ENDPOINT API_V3 urlencode json_loads transport tr
  = Some (match body with
          | EmptyString => Ok tt
          | _ => match json_loads body with
                 | Some _ => Ok tt
                 | None => Raise (MalformedError true body)
                 end
          end,
          (tr ++ [EvHttp "GET" (API_ENDPOINT ++ API_V3 ++ "/ping") None])%list).
Proof.
  intro Ht. unfold ping_spot_endpoint. rewrite request_unfold.
  rewrite (attempt_success urlencode json_loads transport
             (ping_request API_ENDPOINT API_V3) tr eq_refl reason body Ht).
  destruct body; [reflexivity|]. destruct (json_loads _); reflexivity.
Qed.

(** Whatever its arguments and whatever the transport answers,
    [get_spot_exchange_info] ends after at most six times the same [GET]:
    the URL always carries a question mark and the encoding of the
    normalized keyword arguments, which is the encoding of the empty
    mapping when no argument is given. *)
Theorem exchange_info_call
    (symbol symbols permissions show_permission_sets symbol_status : PyVal)
    (tr : list Event) :
  (exists res (k : nat),
      (k <= 5)%nat
      /\ get_spot_exchange_info API_ENDPOINT API_V3 urlencode json_loads transport
                                symbol symbols permissions show_permission_sets
                                symbol_status tr
         = Some (res,
                 (tr ++ rounds (EvHttp "GET"
                                  ((API_ENDPOINT ++ API_V3 ++ "/exchangeInfo") ++ "?"
                                   ++ urlencode
                                        (tidy_request_params
                                           (exchange_info_locals
                                              symbol symbols permissions
                                              show_permission_sets symbol_status)))
                                  None) k
                     ++ [EvHttp "GET"
                           ((API_ENDPOINT ++ API_V3 ++ "/exchangeInfo") ++ "?"
                            ++ urlencode
                                 (tidy_request_params
                                    (exchange_info_locals
                                       symbol symbols permissions
                                       show_permission_sets symbol_status)))
                           None])%list))
  /\ tidy_request_params (exchange_info_locals VNone VNone VNone VNone VNone) = [].
Proof.
  split; [|reflexivity].
  destruct (fresh_call_shape urlencode json_loads transport
              (exchange_info_request API_ENDPOINT API_V3 symbol symbols permissions
                                     show_permission_sets symbol_status)
              tr eq_refl eq_refl)
    as (res & req' & k & Hk & Hrun).
  exists res, k. split; [exact Hk|].
  unfold get_spot_exchange_info. rewrite Hrun. reflexivity.
Qed.

(** [get_spot_symbols] never returns a list: when the request fails it
    raises what the request raised, and when the request succeeds it raises
    the attribute error of [exchange_info.symbols], since a [Response] has
    no such attribute. *)
Theorem spot_symbols_always_raises (tr : list Event) :
  exists e tr',
    get_spot_symbols API_ENDPOINT API_V3 urlencode json_loads transport tr
    = Some (Raise e, tr')
    /\ match get_spot_exchange_info API_ENDPOINT API_V3 urlencode json_loads
                                    transport VNone VNone VNone VNone VNone tr with
       | Some (Ok _, tr0) => e = AttributeError "symbols" /\ tr' = tr0
       | Some (Raise e0, tr0) => e = e0 /\ tr' = tr0
       | None => False
       end.
Proof.
  unfold get_spot_symbols, get_spot_exchange_info.
  destruct (request_total urlencode json_loads transport
              (exchange_info_request API_ENDPOINT API_V3
                                     VNone VNone VNone VNone VNone) tr)
    as [[[res req'] tr'] Hrun].
  rewrite Hrun. destruct res as [resp|e].
  - exists (AttributeError "symbols"), tr'. split; [reflexivity | auto].
  - exists e, tr'. split; [reflexivity | auto].
Qed.

End EndpointFacts.

Lemma ping_needs_a_decodable_body_witness :
  ping_spot_endpoint "https://api.binance.com" "/api/v3" urlencode_unescaped Json.loads
                     (fun _ => Reply 200 "OK" "{}") []
  = Some (Ok tt, [EvHttp "GET" "https://api.binance.com/api/v3/ping" None])
  /\ ping_spot_endpoint "https://api.binance.com" "/api/v3" urlencode_unescaped
                        Json.loads (fun _ => Reply 200 "OK" "pong") []
     = Some (Raise (MalformedError true "pong"),
             [EvHttp "GET" "https://api.binance.com/api/v3/ping" None]).
Proof.
  split.
  - refine (eq_trans
              (ping_needs_a_decodable_body
                 "https://api.binance.com" "/api/v3" urlencode_unescaped Json.loads
                 (fun _ => Reply 200 "OK" "{}") [] "OK" "{}" eq_refl) _).
    vm_compute. reflexivity.
  - refine (eq_trans
              (ping_needs_a_decodable_body
                 "https://api.binance.com" "/api/v3" urlencode_unescaped Json.loads
                 (fun _ => Reply 200 "OK" "pong") [] "OK" "pong" eq_refl) _).
    vm_compute. reflexivity.
Defined.

(** The query of [get_spot_exchange_info] names its arguments as the Python
    function does: a list of symbols goes under [symbols] as a bracketed
    literal, and the flag goes under [show_permission_sets], in lower case. *)
Theorem exchange_info_query (t : string) (r : list string) (b : bool) :
  tidy_request_params
    (exchange_info_locals VNone (VList (map VStr (t :: r))) VNone VNone VNone)
  = [("symbols", VStr ("[" ++ join "," (map quoted (t :: r)) ++ "]"))]
  /\ tidy_request_params
       (exchange_info_locals VNone VNone VNone (VBool b) VNone)
     = [("show_permission_sets", VStr (if b then "true" else "false"))].
Proof.
  split.
  - unfold tidy_request_params, exchange_info_locals.
    cbn [filter snd is_none negb fold_left tidy_entry dict_set String.eqb
         Ascii.eqb Bool.eqb map].
    change (VStr t :: map VStr r) with (map VStr (t :: r)).
    rewrite list_literal_of_strings. unfold spec_list_literal.
    rewrite map_map. reflexivity.
  - destruct b; reflexivity.
Qed.

(** The counter lives on the descriptor and is never reset: after a call
    that exhausted its retries on connection failures, a second call on the
    same descriptor makes one HTTP call, does not sleep and raises the
    exhaustion error at once. *)
Theorem reused_descriptor_has_no_retries_left
    (urlencode : dict -> string) (json_loads : string -> option PyVal)
    (transport : nat -> Outcome) (req : Request) (tr : list Event) :
  reaches_transport req = true ->
  retry req = 0 ->
  (forall n, connection_failure (transport n)) ->
  exists e1 e2 req' tr',
    request urlencode json_loads transport req tr
    = Some (Raise (RetriesExhausted 5 e1), req', tr')
    /\ http_calls tr' = (http_calls tr + 6)%nat
    /\ request urlencode json_loads transport req' tr'
       = Some (Raise (RetriesExhausted 5 e2), req',
               (tr' ++ [http_event urlencode req])%list).
Proof.
  intros Hreach Hzero Hfail.
  destruct (request_total urlencode json_loads transport req tr)
    as [[[res req'] tr'] Hrun].
  pose proof Hrun as Hshape. unfold request in Hshape.
  apply loop_shape in Hshape as (k & _ & _ & Hreq'); [|exact Hreach].
  destruct (exhausting_run urlencode json_loads transport
              (fun n => or_introl (Hfail n)) 5 req tr Hreach)
    as (req1 & tr1 & Hrun1 & Hr1 & Hh1 & _); [rewrite Hzero; reflexivity|].
  rewrite Hrun in Hrun1. injection Hrun1 as -> <- <-.
  destruct (Hfail (http_calls tr + 5)%nat) as [e1 He1].
  destruct (Hfail (http_calls tr')) as [e2 He2].
  exists e1, e2, req', tr'. rewrite Hrun, He1.
  split; [reflexivity|]. split; [lia|].
  assert (Hreach' : reaches_transport req' = true)
    by (rewrite Hreq'; apply retried_reaches; exact Hreach).
  rewrite request_unfold.
  rewrite (attempt_connection_failure _ _ _ _ _ Hreach' e2 He2), Hr1.
  cbn [Z.ltb Z.compare Pos.compare Pos.compare_cont].
  rewrite Hreq' at 1 2 3.
  rewrite http_event_of_retry, injected_set_retry, injected_twice.
  rewrite <- Hreq'. reflexivity.
Qed.

Lemma reused_descriptor_has_no_retries_left_witness :
  exists e1 e2 req' tr',
    request urlencode_unescaped Json.loads
            (fun _ => ConnectionError "connection refused")
            (Request_default "https://api.binance.com" "/api/v3/ping") []
    = Some (Raise (RetriesExhausted 5 e1), req', tr')
    /\ http_calls tr' = 6%nat
    /\ request urlencode_unescaped Json.loads
               (fun _ => ConnectionError "connection refused") req' tr'
       = Some (Raise (RetriesExhausted 5 e2), req',
               (tr' ++ [EvHttp "GET" "https://api.binance.com/api/v3/ping" None])%list).
Proof.
  apply (reused_descriptor_has_no_retries_left
           urlencode_unescaped Json.loads
           (fun _ => ConnectionError "connection refused")
           (Request_default "https://api.binance.com" "/api/v3/ping") []
           eq_refl eq_refl).
  intros n. exists "connection refused". reflexivity.
Defined.
